(** * Dependency URL checker: the configuration variable resolver

    A shallow embedding of [contrib/check_dependency_urls.py] and the
    properties its specification states about it.

    Python strings are sequences of Unicode code points: a character is an
    [N], a string a [list N].  Dictionaries whose iteration order is never
    observed ([variables]) are [gmap]s; the package index, whose keys are
    iterated, is an association list in insertion order. *)

From Stdlib Require Import ZArith NArith List Ascii String Decimal DecimalString Lia.
From stdpp Require Import base option list gmap.

Local Open Scope N_scope.

(** ** Strings *)

Abbreviation str := (list N).

(** A literal: the code points of an ASCII string. *)
Definition py (s : string) : str := N_of_ascii <$> list_ascii_of_string s.

Definition str_eqb (a b : str) : bool := bool_decide (a = b).

(** [s.startswith(prefix)] *)
Fixpoint startswith (s prefix : str) {struct prefix} : bool :=
  match prefix, s with
  | [], _ => true
  | p :: prefix', c :: s' => (p =? c) && startswith s' prefix'
  | _ :: _, [] => false
  end.

(** [s.endswith(suffix)] *)
Definition endswith (s suffix : str) : bool :=
  startswith (reverse s) (reverse suffix).

(** [sub in s] *)
Fixpoint contains (s sub : str) : bool :=
  startswith s sub ||
  match s with
  | [] => false
  | _ :: s' => contains s' sub
  end.

(** [s.lstrip(chars)] and [s.rstrip(chars)], the character set given as a
    predicate. *)
Fixpoint lstrip_by (p : N → bool) (s : str) : str :=
  match s with
  | c :: s' => if p c then lstrip_by p s' else s
  | [] => []
  end.

Definition rstrip_by (p : N → bool) (s : str) : str :=
  reverse (lstrip_by p (reverse s)).

(** Py_UNICODE_ISSPACE: the characters [str.strip()] removes and the regular
    expression class [\s] accepts on [str] patterns. *)
Definition isspace (c : N) : bool :=
  ((9 <=? c) && (c <=? 13)) || ((28 <=? c) && (c <=? 32)) ||
  (c =? 133) || (c =? 160) || (c =? 5760) ||
  ((8192 <=? c) && (c <=? 8202)) || (c =? 8232) || (c =? 8233) ||
  (c =? 8239) || (c =? 8287) || (c =? 12288).

(** [s.strip()] *)
Definition strip (s : str) : str := rstrip_by isspace (lstrip_by isspace s).

(** [s.replace(old, new)]: every non-overlapping occurrence, left to right.
    [skip] counts the characters of an occurrence still to be dropped. *)
Fixpoint replace_go (old new : str) (skip : nat) (s : str) : str :=
  match skip with
  | S k => match s with
           | [] => []
           | _ :: s' => replace_go old new k s'
           end
  | O => match s with
         | [] => []
         | c :: s' =>
             if startswith s old
             then new ++ replace_go old new (length old - 1) s'
             else c :: replace_go old new 0 s'
         end
  end.

Definition replace (s old new : str) : str :=
  match old with
  | [] => new ++ flat_map (λ c, c :: new) s
  | _ :: _ => replace_go old new 0 s
  end.

(** [sep.join(parts)] *)
Fixpoint join (sep : str) (parts : list str) : str :=
  match parts with
  | [] => []
  | [p] => p
  | p :: ps => p ++ sep ++ join sep ps
  end.

(** [s.split(sep, 1)] for a one-character separator: the text before the
    first separator and, when there is one, the text after it. *)
Fixpoint split1 (sep : N) (s : str) : str * option str :=
  match s with
  | [] => ([], None)
  | c :: s' =>
      if c =? sep then ([], Some s')
      else let '(a, b) := split1 sep s' in (c :: a, b)
  end.

(** [s.rsplit(sep, 1)] for a one-character separator: [Some (a, b)] when the
    result has two parts (split at the last separator), [None] when the
    separator does not occur. *)
Definition rsplit1 (sep : N) (s : str) : option (str * str) :=
  match split1 sep (reverse s) with
  | (b, Some a) => Some (reverse a, reverse b)
  | (_, None) => None
  end.

(** [str(n)] for an [int]. *)
Definition str_of_Z (n : Z) : str := py (NilZero.string_of_int (Z.to_int n)).

(** ** Regular expressions

    The fragment of Python's [re] the program uses, with the backtracking
    semantics of the engine: alternatives in order, repetitions greedy,
    leftmost match. Repetition is over a character class, which is all the
    program's patterns need. *)

Inductive regex : Type :=
| Eps                         (* the empty pattern *)
| Lit (c : N)                 (* a literal character *)
| Cls (p : N → bool)          (* one character of a class *)
| Star (p : N → bool)         (* [class*], greedy *)
| Plus (p : N → bool)         (* [class+], greedy *)
| Seq (r1 r2 : regex)
| Alt (r1 r2 : regex)
| Grp (i : nat) (r : regex)   (* capturing group number [i] *)
| Eos.                        (* [$]: at the end, or before a final newline *)

Abbreviation captures := (list (nat * str)).

(** Greedy repetition: take the longest run first and give characters back
    while the continuation fails. *)
Fixpoint greedy {A} (p : N → bool) (s : str) (k : str → option A) : option A :=
  match s with
  | c :: s' =>
      if p c
      then match greedy p s' k with
           | Some a => Some a
           | None => k s
           end
      else k s
  | [] => k []
  end.

Fixpoint rmatch {A} (r : regex) (s : str) (g : captures)
    (k : str → captures → option A) : option A :=
  match r with
  | Eps => k s g
  | Lit c =>
      match s with
      | c' :: s' => if c =? c' then k s' g else None
      | [] => None
      end
  | Cls p =>
      match s with
      | c' :: s' => if p c' then k s' g else None
      | [] => None
      end
  | Star p => greedy p s (λ rest, k rest g)
  | Plus p =>
      match s with
      | c' :: s' => if p c' then greedy p s' (λ rest, k rest g) else None
      | [] => None
      end
  | Seq r1 r2 => rmatch r1 s g (λ rest g', rmatch r2 rest g' k)
  | Alt r1 r2 =>
      match rmatch r1 s g k with
      | Some a => Some a
      | None => rmatch r2 s g k
      end
  | Grp i r' =>
      rmatch r' s g
        (λ rest g', k rest ((i, take (length s - length rest) s) :: g'))
  | Eos =>
      match s with
      | [] => k s g
      | [10] => k s g
      | _ => None
      end
  end.

(** A match object: [start()], [end()], [group(0)] and the groups. *)
Record Match : Type := mkMatch {
  m_start : nat;
  m_end : nat;
  m_text : str;
  m_groups : captures
}.

Fixpoint assoc_group (i : nat) (g : captures) : option str :=
  match g with
  | [] => None
  | (j, v) :: g' => if Nat.eqb i j then Some v else assoc_group i g'
  end.

(** [m.group(i)] for [i >= 1]; every group of the program's patterns takes
    part in every match, so the default is never used. *)
Definition group (m : Match) (i : nat) : str :=
  default [] (assoc_group i (m_groups m)).

(** The numbers of the groups of a pattern. *)
Fixpoint group_ids (r : regex) : list nat :=
  match r with
  | Seq r1 r2 | Alt r1 r2 => group_ids r1 ++ group_ids r2
  | Grp i r' => i :: group_ids r'
  | _ => []
  end.

(** A match of [r] that starts at the head of [s], which is the suffix at
    offset [pos] of the subject. *)
Definition match_at (r : regex) (pos : nat) (s : str) : option Match :=
  rmatch r s []
    (λ rest g,
       let n := (length s - length rest)%nat in
       Some (mkMatch pos (pos + n) (take n s) g)).

(** [re.match(r, s)] *)
Definition re_match (r : regex) (s : str) : option Match := match_at r 0 s.

Fixpoint search_from (r : regex) (pos : nat) (s : str) : option Match :=
  match match_at r pos s with
  | Some m => Some m
  | None =>
      match s with
      | [] => None
      | _ :: s' => search_from r (S pos) s'
      end
  end.

(** [re.search(r, s)]: the leftmost match. *)
Definition re_search (r : regex) (s : str) : option Match := search_from r 0 s.

(** [re.finditer(r, s)]: the non-overlapping matches from left to right.
    After a match of [n > 0] characters the next [n - 1] positions are
    skipped; after an empty match the scan moves on by one. *)
Fixpoint finditer_go (r : regex) (skip pos : nat) (s : str) : list Match :=
  match skip with
  | S k => match s with
           | [] => []
           | _ :: s' => finditer_go r k (S pos) s'
           end
  | O =>
      match match_at r pos s with
      | Some m =>
          m :: match s with
               | [] => []
               | _ :: s' => finditer_go r (m_end m - m_start m - 1) (S pos) s'
               end
      | None =>
          match s with
          | [] => []
          | _ :: s' => finditer_go r 0 (S pos) s'
          end
      end
  end.

Definition finditer (r : regex) (s : str) : list Match := finditer_go r 0 0 s.

(** [re.sub(r, repl, s)] for a replacement without group references. *)
Fixpoint sub_go (r : regex) (repl : str) (skip : nat) (s : str) : str :=
  match skip with
  | S k => match s with
           | [] => []
           | _ :: s' => sub_go r repl k s'
           end
  | O =>
      match match_at r 0 s with
      | Some m =>
          repl ++
          match s with
          | [] => []
          | c :: s' =>
              if Nat.eqb (m_end m) 0 then c :: sub_go r repl 0 s'
              else sub_go r repl (m_end m - 1) s'
          end
      | None =>
          match s with
          | [] => []
          | c :: s' => c :: sub_go r repl 0 s'
          end
      end
  end.

Definition re_sub (r : regex) (repl s : str) : str := sub_go r repl 0 s.

(** The pattern that matches the characters of [s] one after another. *)
Fixpoint text (s : str) : regex :=
  match s with
  | [] => Eps
  | c :: s' => Seq (Lit c) (text s')
  end.

(** *** Character classes *)

Definition in_range (lo hi c : N) : bool := (lo <=? c) && (c <=? hi).

Definition ascii_alpha (c : N) : bool := in_range 65 90 c || in_range 97 122 c.
Definition ascii_digit (c : N) : bool := in_range 48 57 c.

(** [[a-zA-Z_]] and [[a-zA-Z0-9_]] *)
Definition ident_start (c : N) : bool := ascii_alpha c || (c =? 95).
Definition ident_char (c : N) : bool := ascii_alpha c || ascii_digit c || (c =? 95).

(** [.]: anything but a newline. *)
Definition dot (c : N) : bool := negb (c =? 10).

(** [[^)]] *)
Definition not_rparen (c : N) : bool := negb (c =? 41).

(** What [\w] accepts above ASCII is decided by the Unicode database of the
    interpreter (Py_UNICODE_ISALNUM), which is not part of the program. *)
Class UnicodeDB : Type := { unicode_alnum : N → bool }.

(** [\w] on [str] patterns: alphanumeric or underscore. *)
Definition word_char `{UnicodeDB} (c : N) : bool :=
  if c <? 128 then ident_char c else unicode_alnum c.

(** A database that knows the alphanumerics of Latin-1 and nothing above. *)
Definition latin1_alnum (c : N) : bool :=
  (c =? 170) || (c =? 178) || (c =? 179) || (c =? 181) ||
  in_range 185 186 c || in_range 188 190 c ||
  in_range 192 214 c || in_range 216 246 c || in_range 248 255 c.

Definition latin1_db : UnicodeDB := {| unicode_alnum := latin1_alnum |}.

(** A character literal. *)
Definition chr (a : ascii) : N := N_of_ascii a.

Notation "r1 ⋅ r2" := (Seq r1 r2) (at level 41, right associativity).

(** The package index [all_packages]: a dictionary whose keys are iterated,
    kept in insertion order. *)
Abbreviation package_index := (list (str * gmap str str)).

(** A result, or the text of the exception raised. *)
Inductive outcome (A : Type) : Type :=
| Return (a : A)
| Raise (e : str).
Arguments Return {A} a.
Arguments Raise {A} e.

(** ** The program *)

Section Program.

Context `{UnicodeDB}.

(** *** Same-package resolution *)

(** [nested_pattern]: [\$\(] group 1 [_] group 2 [\)], where group 1 is
    [[a-zA-Z_][a-zA-Z0-9_]*] and group 2 is [\w+]. *)
Definition nested_pattern : regex :=
  Lit (chr "$") ⋅ Lit (chr "(") ⋅
  Grp 1 (Cls ident_start ⋅ Star ident_char) ⋅
  Lit (chr "_") ⋅ Grp 2 (Plus word_char) ⋅ Lit (chr ")").

(** [var_pattern]: [\$\(] group 1 [\)], where group 1 is
    [[a-zA-Z_][a-zA-Z0-9_]*]. *)
Definition var_pattern : regex :=
  Lit (chr "$") ⋅ Lit (chr "(") ⋅
  Grp 1 (Cls ident_start ⋅ Star ident_char) ⋅ Lit (chr ")").

(** The body of the [while] loop of [resolve_variables], from the string in
    [result] at the top of an iteration to the string at its end, with
    whether the loop goes on: [true] after [continue] and when [changed]
    is set, [false] at [break]. *)
Definition resolve_step (variables : gmap str str) (package_name : str)
    (result : str) : str * bool :=
  let old_result := result in
  let result := replace result (py "$(package)") package_name in
  let changed := negb (str_eqb result old_result) in
  let nested :=
    match re_search nested_pattern result with
    | Some m =>
        let prefix := group m 1 in
        let var_name := group m 2 in
        if str_eqb prefix package_name then
          match variables !! var_name with
          | Some v => Some (replace result (m_text m) v)
          | None => None
          end
        else None
    | None => None
    end in
  match nested with
  | Some result' => (result', true)
  | None =>
      let direct :=
        match re_search var_pattern result with
        | Some m =>
            let var_key := group m 1 in
            if startswith var_key (package_name ++ py "_") then
              let var_name := drop (length package_name + 1) var_key in
              match variables !! var_name with
              | Some v => Some (replace result (m_text m) v)
              | None => None
              end
            else None
        | None => None
        end in
      match direct with
      | Some result' => (result', true)
      | None => (result, changed)
      end
  end.

(** [while iteration < max_iterations: iteration += 1; body], where
    [remaining] is [max_iterations - iteration]. The loop returns the value
    of [iteration] with the string it stopped at. *)
Fixpoint bounded_loop (body : str → str * bool) (remaining iteration : nat)
    (result : str) : nat * str :=
  match remaining with
  | O => (iteration, result)
  | S remaining' =>
      let iteration := S iteration in
      let '(result', go_on) := body result in
      if go_on then bounded_loop body remaining' iteration result'
      else (iteration, result')
  end.

(** The string after [n] executions of the body. *)
Definition after (body : str → str * bool) (n : nat) (value : str) : str :=
  Nat.iter n (λ r, fst (body r)) value.

Definition resolve_variables (value : str) (variables : gmap str str)
    (package_name : str) : str :=
  let max_iterations := 20%nat in
  snd (bounded_loop (resolve_step variables package_name) max_iterations 0 value).

(** *** Cross-package resolution *)

(** [all_packages.keys()] *)
Definition index_keys (all_packages : package_index) : list str := all_packages.*1.

(** [all_packages[k]], [None] when [k not in all_packages]. *)
Fixpoint index_get (all_packages : package_index) (k : str) : option (gmap str str) :=
  match all_packages with
  | [] => None
  | (k', v) :: rest => if str_eqb k k' then Some v else index_get rest k
  end.

(** [all_packages[k] = v]: a known key keeps its place. *)
Fixpoint index_set (all_packages : package_index) (k : str) (v : gmap str str) : package_index :=
  match all_packages with
  | [] => [(k, v)]
  | (k', v') :: rest =>
      if str_eqb k k' then (k, v) :: rest else (k', v') :: index_set rest k v
  end.

(** [cross_pattern]: [\$\(] group 1 [\)], where group 1 is [[^)]+]. *)
Definition cross_pattern : regex :=
  Lit (chr "$") ⋅ Lit (chr "(") ⋅ Grp 1 (Plus not_rparen) ⋅ Lit (chr ")").

(** The [for other_package in all_packages.keys()] loop: the value to
    substitute for [full_var], from the first package that is not
    [package_name], whose name followed by an underscore starts [full_var],
    and that has the rest of [full_var] as a variable. *)
Fixpoint by_prefix (all_packages : package_index) (package_name full_var : str)
    (keys : list str) : option str :=
  match keys with
  | [] => None
  | other_package :: keys' =>
      if negb (str_eqb other_package package_name)
         && startswith full_var (other_package ++ py "_")
      then
        let var_name := drop (length other_package + 1) full_var in
        match index_get all_packages other_package with
        | Some vars =>
            match vars !! var_name with
            | Some var_value =>
                Some (resolve_variables var_value vars other_package)
            | None => by_prefix all_packages package_name full_var keys'
            end
        | None => by_prefix all_packages package_name full_var keys'
        end
      else by_prefix all_packages package_name full_var keys'
  end.

(** The fallback, [full_var.rsplit('_', 1)]: package and variable split at
    the last underscore. *)
Definition by_last_underscore (all_packages : package_index)
    (package_name full_var : str) : option str :=
  match rsplit1 (chr "_") full_var with
  | Some (potential_package, var_name) =>
      if negb (str_eqb potential_package package_name) then
        match index_get all_packages potential_package with
        | Some vars =>
            match vars !! var_name with
            | Some var_value =>
                Some (resolve_variables var_value vars potential_package)
            | None => None
            end
        | None => None
        end
      else None
  | None => None
  end.

(** The body of [for match in reversed(matches)], on the pair
    [(result, changed)]. *)
Definition cross_match (all_packages : package_index) (package_name : str)
    (st : str * bool) (m : Match) : str * bool :=
  let '(result, changed) := st in
  let full_var := group m 1 in
  let splice var_value :=
    (take (m_start m) result ++ var_value ++ drop (m_end m) result, true) in
  match by_prefix all_packages package_name full_var (index_keys all_packages) with
  | Some var_value => splice var_value
  | None =>
      match by_last_underscore all_packages package_name full_var with
      | Some var_value => splice var_value
      | None => (result, changed)
      end
  end.

(** The body of the [while] loop of [resolve_cross_package_variables]. *)
Definition cross_step (package_name : str) (all_packages : package_index)
    (result : str) : str * bool :=
  let matches := finditer cross_pattern result in
  foldl (cross_match all_packages package_name) (result, false) (reverse matches).

Definition resolve_cross_package_variables (value package_name : str)
    (all_packages : package_index) : str :=
  let max_iterations := 10%nat in
  snd (bounded_loop (cross_step package_name all_packages) max_iterations 0 value).

(** *** The variable extractor *)

(** [f.readlines()] on a file opened in text mode: a line ends after
    ["\n"], ["\r"] or ["\r\n"], each read as ["\n"]. [line] holds the
    characters of the line under construction, last first. *)
Fixpoint readlines_go (line : str) (content : str) : list str :=
  match content with
  | [] => match line with
          | [] => []
          | _ :: _ => [reverse line]
          end
  | c :: content' =>
      if c =? 10 then reverse (10 :: line) :: readlines_go [] content'
      else if c =? 13 then
        match content' with
        | 10 :: _ => readlines_go line content'
        | _ => reverse (10 :: line) :: readlines_go [] content'
        end
      else readlines_go (c :: line) content'
  end.

Definition readlines (content : str) : list str := readlines_go [] content.

(** The first loop of [parse_mk_file]: the value of the first line that
    starts with [package=], [None] when the loop ends without [break].
    The line has an [=], so [split('=', 1)[1]] exists. *)
Fixpoint find_package (lines : list str) : option str :=
  match lines with
  | [] => None
  | line :: lines' =>
      let line := strip line in
      if startswith line (py "package=")
      then Some (strip (default [] (snd (split1 (chr "=") line))))
      else find_package lines'
  end.

(** Python truth of an [Optional[str]]: neither [None] nor empty. *)
Definition truthy (o : option str) : bool :=
  match o with
  | Some (_ :: _) => true
  | _ => false
  end.

(** [assign_pattern]: [\$\(package\)_] group 1 [\s*=\s*] group 2, where
    group 1 is [\w+] and group 2 is [.+]. *)
Definition assign_pattern : regex :=
  text (py "$(package)_") ⋅ Grp 1 (Plus word_char) ⋅
  Star isspace ⋅ Lit (chr "=") ⋅ Star isspace ⋅ Grp 2 (Plus dot).

(** [cond_suffix]: [\s+] group 1 [.*$], where group 1 is
    [if|else|endif|ifeq|ifneq]. *)
Definition cond_suffix : regex :=
  Plus isspace ⋅
  Grp 1 (Alt (text (py "if")) (Alt (text (py "else")) (Alt (text (py "endif"))
          (Alt (text (py "ifeq")) (text (py "ifneq")))))) ⋅
  Star dot ⋅ Eos.

(** The local variables of the second loop of [parse_mk_file]. *)
Record scan : Type := mkScan {
  variables : gmap str str;
  current_var : option str;
  current_value : list str;
  in_conditional : bool;
  conditional_depth : Z
}.

(** [variables[current_var] = ' '.join(current_value).strip()] when
    [current_var] is set. *)
Definition flush (st : scan) : gmap str str :=
  match current_var st with
  | Some ((_ :: _) as name) =>
      <[name := strip (join (py " ") (current_value st))]> (variables st)
  | _ => variables st
  end.

(** The body of the second loop of [parse_mk_file]. *)
Definition scan_line (st : scan) (line : str) : scan :=
  let stripped := strip line in
  if bool_decide (stripped = []) || startswith stripped (py "#") then st
  else if startswith stripped (py "if") || startswith stripped (py "ifeq")
          || startswith stripped (py "ifneq") then
    mkScan (variables st) (current_var st) (current_value st)
      true (conditional_depth st + 1)
  else if startswith stripped (py "else") then st
  else if startswith stripped (py "endif") then
    let depth := (conditional_depth st - 1)%Z in
    mkScan (variables st) (current_var st) (current_value st)
      (if (depth =? 0)%Z then false else in_conditional st) depth
  else if startswith stripped (py "define ") || startswith stripped (py "endef")
  then st
  else
    match re_match assign_pattern stripped with
    | Some var_match =>
        let value := strip (group var_match 2) in
        let value := re_sub cond_suffix [] value in
        mkScan (flush st) (Some (group var_match 1)) [value]
          (in_conditional st) (conditional_depth st)
    | None =>
        if truthy (current_var st) && negb (bool_decide (stripped = []))
           && negb (in_conditional st)
        then
          let clean_line := re_sub cond_suffix [] stripped in
          match clean_line with
          | [] => st
          | _ :: _ =>
              mkScan (variables st) (current_var st)
                (current_value st ++ [clean_line])
                (in_conditional st) (conditional_depth st)
          end
        else st
    end.

Definition scan_init : scan := mkScan ∅ None [] false 0.

(** [parse_mk_file], on the decoded content of the file. *)
Definition parse_mk_file (content : str) : option str * gmap str str :=
  let lines := readlines content in
  let package_name := find_package lines in
  if negb (truthy package_name) then (None, ∅)
  else (package_name, flush (foldl scan_line scan_init lines)).

(** *** The URL builder *)

Definition is_slash (c : N) : bool := c =? chr "/".

Definition build_url (download_path file_name : str) : str :=
  let download_path := rstrip_by is_slash download_path in
  let file_name := lstrip_by is_slash file_name in
  if endswith download_path (py "/")
  then download_path ++ file_name
  else download_path ++ py "/" ++ file_name.

(** The URL builder in the words of the specification, to compare with
    [build_url]: one trailing slash off the base path, one leading slash
    off the file name, and a slash between the two. *)
Definition strip_one_trailing_slash (s : str) : str :=
  if endswith s (py "/") then take (length s - 1) s else s.

Definition strip_one_leading_slash (s : str) : str :=
  if startswith s (py "/") then drop 1 s else s.

Definition build_url_as_specified (base_path file_name : str) : str :=
  strip_one_trailing_slash base_path ++ py "/" ++ strip_one_leading_slash file_name.

(** *** The availability checker *)

(** What [requests.head] does: it returns a response, or raises. An
    exception is classified by the first [except] clause of [check_url]
    that catches it. *)
Inductive probe : Type :=
| Response (status_code : Z)
| Timeout                          (* a [requests.exceptions.Timeout] *)
| ConnectionError                  (* else a [ConnectionError] *)
| TooManyRedirects                 (* else a [TooManyRedirects] *)
| RequestException (e : str)       (* else a [RequestException], with [str(e)] *)
| OtherException (e : str).        (* not a [RequestException]: not caught *)

Definition check_url (head : str → probe) (url : str)
    (package_name : option str) : outcome (bool * Z * str) :=
  match head url with
  | Response status_code =>
      if (status_code =? 200)%Z then Return (true, status_code, py "Ok")
      else if (status_code =? 404)%Z then Return (false, status_code, py "Not Found")
      else if (status_code =? 418)%Z
              && bool_decide (package_name = Some (py "fontconfig"))
      then Return (true, status_code, py "Ok (418 - special case)")
      else Return (false, status_code, py "HTTP " ++ str_of_Z status_code)
  | Timeout => Return (false, 0%Z, py "Timeout")
  | ConnectionError => Return (false, 0%Z, py "Connection Error")
  | TooManyRedirects => Return (false, 0%Z, py "Too Many Redirects")
  | RequestException e => Return (false, 0%Z, py "Error: " ++ e)
  | OtherException e => Raise e
  end.

(** *** The cross-file index *)

(** [load_all_packages], on the files [depends_dir.glob('*.mk')] yields,
    each with its name and decoded content. *)
Fixpoint load_all_packages_go (all_packages : package_index) (files : list (str * str))
    : package_index :=
  match files with
  | [] => all_packages
  | (name, content) :: files' =>
      if bool_decide (name = py "packages.mk") || bool_decide (name = py "dummy.mk")
      then load_all_packages_go all_packages files'
      else
        let '(package_name, variables) := parse_mk_file content in
        match package_name with
        | Some ((_ :: _) as package_name) =>
            load_all_packages_go (index_set all_packages package_name variables) files'
        | _ => load_all_packages_go all_packages files'
        end
  end.

Definition load_all_packages (files : list (str * str)) : package_index :=
  load_all_packages_go [] files.

(** *** Per-file orchestration *)

(** The dictionary [check_dependency_file] returns: ['url'] and
    ['status_code'] are absent from some results. *)
Record result : Type := mkResult {
  r_package : str;
  r_url : option str;
  r_status : str;
  r_status_code : option Z;
  r_message : str
}.

(** The choice of [file_var], [None] when the function returns instead. *)
Definition choose_file_var (package_name : str) (variables : gmap str str)
    : option str :=
  if bool_decide (package_name = py "zeromq")
     && bool_decide (is_Some (variables !! py "file_name"))
  then Some (py "file_name")
  else if bool_decide (is_Some (variables !! py "download_file"))
  then Some (py "download_file")
  else if bool_decide (is_Some (variables !! py "file_name"))
  then Some (py "file_name")
  else None.

(** [check_dependency_file]: [stem] is [mk_file.stem], [content] the decoded
    content of [mk_file], [head] the network. [all_packages] is [None]
    when the argument is left out. *)
Definition check_dependency_file (head : str → probe) (stem content : str)
    (all_packages : option package_index) : result :=
  match parse_mk_file content with
  | (Some ((_ :: _) as package_name), variables) =>
      match variables !! py "download_path" with
      | None =>
          mkResult package_name None (py "skip") None
            (py "Missing required variable (download_path)")
      | Some download_path_raw =>
          match choose_file_var package_name variables with
          | None =>
              mkResult package_name None (py "skip") None
                (py "Missing required variable (download_file or file_name)")
          | Some file_var =>
              let download_path :=
                resolve_variables download_path_raw variables package_name in
              let file_name :=
                resolve_variables (default [] (variables !! file_var))
                  variables package_name in
              let '(download_path, file_name) :=
                match all_packages with
                | Some ((_ :: _) as all_packages) =>
                    (resolve_cross_package_variables download_path package_name all_packages,
                     resolve_cross_package_variables file_name package_name all_packages)
                | _ => (download_path, file_name)
                end in
              if contains download_path (py "$(") || contains file_name (py "$(")
              then
                mkResult package_name None (py "skip") None
                  (py "Failed to resolve all variables (possible cross-package references)")
              else
                let url := build_url download_path file_name in
                match check_url head url (Some package_name) with
                | Return (success, status_code, message) =>
                    mkResult package_name (Some url)
                      (if success then py "ok" else py "error")
                      (Some status_code) message
                | Raise e =>
                    mkResult stem None (py "error") None
                      (py "Error processing: " ++ e)
                end
          end
      end
  | _ =>
      mkResult stem None (py "error") None (py "Failed to determine package name")
  end.

End Program.


(** ** The run *)

(** A file of the packages directory: [f.name], [f.stem] and the decoded
    content. *)
Record mk_file : Type := mkFile {
  f_name : str;
  f_stem : str;
  f_content : str
}.

(** [a < b] on strings: by code points, the shorter first. *)
Fixpoint str_ltb (a b : str) : bool :=
  match a, b with
  | _, [] => false
  | [], _ :: _ => true
  | x :: a', y :: b' => (x <? y) || ((x =? y) && str_ltb a' b')
  end.

(** [sorted(files)]: paths of one directory compare by their names (as on
    a POSIX system); the sort is stable. *)
Fixpoint insert_file (f : mk_file) (files : list mk_file) : list mk_file :=
  match files with
  | [] => [f]
  | g :: files' =>
      if str_ltb (f_name g) (f_name f) then g :: insert_file f files'
      else f :: files
  end.

Definition sorted (files : list mk_file) : list mk_file :=
  foldr insert_file [] files.

(** [f.name not in ['packages.mk', 'dummy.mk']] *)
Definition is_package_file (f : mk_file) : bool :=
  negb (bool_decide (f_name f = py "packages.mk")
        || bool_decide (f_name f = py "dummy.mk")).

Definition GREEN : str := 27 :: py "[92m".
Definition RED : str := 27 :: py "[91m".
Definition RESET : str := 27 :: py "[0m".

(** The line end [print] adds. *)
Definition newline : str := [10].

(** [print(line)] after the output [out]. *)
Definition print (out line : str) : str := out ++ line ++ newline.

(** [str(n)] for a length or a count. *)
Definition str_of_nat (n : nat) : str := str_of_Z (Z.of_nat n).

(** The text of [result.get('status_code', 'N/A')] and of
    [result.get('url', 'N/A')]. *)
Definition show_status_code (result : result) : str :=
  match r_status_code result with
  | Some code => str_of_Z code
  | None => py "N/A"
  end.

Definition show_url (result : result) : str := default (py "N/A") (r_url result).

(** [f"{package:30s}"]: filled with blanks up to 30 characters. *)
Definition pad30 (package : str) : str :=
  package ++ replicate (30 - length package) (chr " ").

(** [sum(1 for r in results if r['status'] == status)] *)
Definition count_status (status : str) (results : list result) : nat :=
  length (filter (λ r, r_status r = status) results).

Section Run.

Context `{UnicodeDB}.

(** The body of the loop over the files, on the output and the results so
    far; [idx] counts from 1. *)
Definition check_one (head : str → probe) (all_packages : package_index)
    (total_files idx : nat) (st : str * list result) (mk_file : mk_file)
    : str * list result :=
  let '(out, results) := st in
  let '(package_name, _) := parse_mk_file (f_content mk_file) in
  let package_display :=
    match package_name with
    | Some ((_ :: _) as name) => name
    | _ => f_stem mk_file
    end in
  let progress :=
    py "[" ++ str_of_nat idx ++ py "/" ++ str_of_nat total_files ++ py "]" in
  let out := out ++ progress ++ py " Checking " ++ package_display ++ py "..."
                 ++ py " " in
  let result :=
    check_dependency_file head (f_stem mk_file) (f_content mk_file)
      (Some all_packages) in
  let results := results ++ [result] in
  let status := r_status result in
  let out :=
    if bool_decide (status = py "ok")
    then print out (GREEN ++ [10003] ++ RESET ++ py " Ok")
    else if bool_decide (status = py "error")
    then print out (RED ++ [10007] ++ RESET ++ py " " ++ r_message result
                      ++ py " (HTTP " ++ show_status_code result ++ py ")")
    else if bool_decide (status = py "skip")
    then print out (py "- " ++ r_message result)
    else out in
  (out, results).

(** [for idx, mk_file in enumerate(mk_files, idx)] *)
Fixpoint check_all (head : str → probe) (all_packages : package_index)
    (total_files idx : nat) (st : str * list result) (mk_files : list mk_file)
    : str * list result :=
  match mk_files with
  | [] => st
  | mk_file :: mk_files' =>
      check_all head all_packages total_files (S idx)
        (check_one head all_packages total_files idx st mk_file) mk_files'
  end.

(** The two lines printed for a result with status [error]. *)
Definition print_error (out : str) (result : result) : str :=
  if bool_decide (r_status result = py "error") then
    let out :=
      print out (py "  " ++ RED ++ [10007] ++ RESET ++ py " "
                   ++ pad30 (r_package result) ++ py " - " ++ r_message result
                   ++ py " (HTTP " ++ show_status_code result ++ py ")") in
    print out (py "    URL: " ++ show_url result)
  else out.

(** [main]: [head] is the network, [depends_packages_dir] the text of the
    directory's path, [listing] what [glob('*.mk')] yields there, [None]
    when the directory does not exist. The result is what is printed and
    the exit code. *)
Definition main (head : str → probe) (depends_packages_dir : str)
    (listing : option (list mk_file)) : str * Z :=
  match listing with
  | None =>
      (print [] (py "Error: directory " ++ depends_packages_dir ++ py " not found"),
       1%Z)
  | Some glob =>
      let mk_files := sorted (List.filter is_package_file glob) in
      match mk_files with
      | [] =>
          (print [] (py "No .mk files found in " ++ depends_packages_dir), 1%Z)
      | _ :: _ =>
          let out :=
            print [] (py "Checking " ++ str_of_nat (length mk_files)
                        ++ py " dependency files..." ++ newline) in
          let out := print out (py "Loading package information...") in
          let all_packages :=
            load_all_packages ((λ f, (f_name f, f_content f)) <$> glob) in
          let out :=
            print out (py "Loaded " ++ str_of_nat (length all_packages)
                         ++ py " packages." ++ newline) in
          let total_files := length mk_files in
          let '(out, results) :=
            check_all head all_packages total_files 1 (out, []) mk_files in
          let out := print out (newline ++ replicate 70 (chr "=")) in
          let ok_count := count_status (py "ok") results in
          let error_count := count_status (py "error") results in
          let skip_count := count_status (py "skip") results in
          let out :=
            print out (py "Summary: Ok: " ++ str_of_nat ok_count
                         ++ py ", Errors: " ++ str_of_nat error_count
                         ++ py ", Skipped: " ++ str_of_nat skip_count) in
          let out :=
            if (0 <? error_count)%nat
            then foldl print_error
                   (print out (newline ++ py "Detailed error information:")) results
            else out in
          (out, if (0 <? error_count)%nat then 1%Z else 0%Z)
      end
  end.

End Run.

(** A string of the form [[a-zA-Z_][a-zA-Z0-9_]*]. *)
Definition is_identifier (s : str) : bool :=
  match s with
  | c :: s' => ident_start c && forallb ident_char s'
  | [] => false
  end.

(** A file with all it takes to build a URL. *)
Definition zlib_mk : str :=
  py "package=zlib" ++ [10] ++
  py "$(package)_version=1.2.11" ++ [10] ++
  py "$(package)_download_path=https://example.org/dl/" ++ [10] ++
  py "# the archive" ++ [10] ++
  py "$(package)_file_name=$(package)-$($(package)_version).tar.gz" ++ [10].

(** The two file variables of [zeromq]: [download_file] is what the
    conditional block for mingw32 sets. *)
Definition zeromq_mk : str :=
  py "package=zeromq" ++ [10] ++
  py "$(package)_version=4.3.1" ++ [10] ++
  py "$(package)_download_path=https://example.org/zeromq" ++ [10] ++
  py "$(package)_file_name=$(package)-$($(package)_version).tar.gz" ++ [10] ++
  py "ifeq ($(host_os),mingw32)" ++ [10] ++
  py "$(package)_download_file=v$($(package)_version).tar.gz" ++ [10] ++
  py "endif" ++ [10].

(** ** Sample inputs *)

(** A line end. *)
Definition nl : str := [10].

(** An index with the package [foo] of the specification's examples. *)
Definition sample_index : package_index :=
  [(py "bar", {[py "download_file" := py "lib-$(foo_version)"]});
   (py "foo", {[py "version" := py "1.2"]})].

(** A file whose only assignment stands in a conditional block. *)
Definition conditional_mk : str :=
  py "package=foo" ++ nl ++
  py "ifeq ($(host_os),mingw32)" ++ nl ++
  py "$(package)_download_file=v1.tar.gz" ++ nl ++
  py "endif" ++ nl.

(** A file with a download path and no file name. *)
Definition path_only_mk : str :=
  py "package=foo" ++ nl ++
  py "$(package)_download_path=https://example.org/dl" ++ nl.

(** A file with a package name and nothing else. *)
Definition name_only_mk : str := py "package=foo" ++ nl.

(** A file whose first [package=] line has no value. *)
Definition empty_name_mk : str :=
  py "package=" ++ nl ++ py "package=foo" ++ nl.

(** * Properties *)

(** ** Strings and patterns *)

(** Replaces the string literals of the goal and the hypotheses by their
    code points. *)
Ltac literals :=
  repeat match goal with
  | |- context [py ?s] =>
      let v := eval vm_compute in (py s) in change (py s) with v
  | H : context [py ?s] |- _ =>
      let v := eval vm_compute in (py s) in change (py s) with v in H
  end.

Lemma startswith_app (s a b : str) :
  startswith s (a ++ b) = true → startswith s a = true.
Proof.
  revert s. induction a as [|x a IH]; intros [|c s]; simpl; try done.
  intros [-> ?]%andb_prop. simpl. eauto.
Qed.

Lemma contains_head (s sub : str) :
  contains s sub = false → startswith s sub = false.
Proof. destruct s; simpl; intros [? ?]%orb_false_elim; done. Qed.

Lemma contains_tail (c : N) (s sub : str) :
  contains (c :: s) sub = false → contains s sub = false.
Proof. simpl. intros [? ?]%orb_false_elim. done. Qed.

Lemma replace_go_cons (old new : str) (c : N) (s : str) :
  replace_go old new 0 (c :: s) =
  if startswith (c :: s) old
  then new ++ replace_go old new (length old - 1) s
  else c :: replace_go old new 0 s.
Proof. reflexivity. Qed.

(** A string without an occurrence of the start of [old] is left alone. *)
Lemma replace_go_absent (mark rest new s : str) :
  contains s mark = false →
  replace_go (mark ++ rest) new 0 s = s.
Proof.
  induction s as [|c s IH]; intros Hs; [done|].
  rewrite replace_go_cons.
  destruct (startswith (c :: s) (mark ++ rest)) eqn:E.
  - apply startswith_app in E. apply contains_head in Hs. congruence.
  - f_equal. apply IH. by eapply contains_tail.
Qed.

Lemma replace_absent (mark rest new s : str) :
  mark ≠ [] → contains s mark = false →
  replace s (mark ++ rest) new = s.
Proof.
  intros Hm Hs. unfold replace.
  destruct (mark ++ rest) eqn:E.
  - destruct mark; [done | discriminate].
  - rewrite <- E. by apply replace_go_absent.
Qed.

(** A pattern that starts with the placeholder marker needs one. *)
Lemma match_at_marker (r : regex) (pos : nat) (s : str) :
  startswith s (py "$(") = false →
  match_at (Lit (chr "$") ⋅ Lit (chr "(") ⋅ r) pos s = None.
Proof.
  intros Hs. unfold match_at. destruct s as [|c [|c' s]]; [done| |].
  - cbn [rmatch]. by destruct (_ =? c).
  - cbn [rmatch].
    destruct (chr "$" =? c) eqn:E1; [|done].
    destruct (chr "(" =? c') eqn:E2; [|done].
    revert Hs. change (py "$(") with [chr "$"; chr "("].
    cbn [startswith]. rewrite E1, E2. intros Hs. simpl in Hs. discriminate.
Qed.

Lemma search_from_marker (r : regex) (pos : nat) (s : str) :
  contains s (py "$(") = false →
  search_from (Lit (chr "$") ⋅ Lit (chr "(") ⋅ r) pos s = None.
Proof.
  revert pos. induction s as [|c s IH]; intros pos Hs.
  - cbn [search_from]. by rewrite match_at_marker.
  - cbn [search_from]. rewrite match_at_marker by (by apply contains_head).
    apply IH. by eapply contains_tail.
Qed.

Lemma finditer_go_marker (r : regex) (pos : nat) (s : str) :
  contains s (py "$(") = false →
  finditer_go (Lit (chr "$") ⋅ Lit (chr "(") ⋅ r) 0 pos s = [].
Proof.
  revert pos. induction s as [|c s IH]; intros pos Hs.
  - cbn [finditer_go]. by rewrite match_at_marker.
  - cbn [finditer_go]. rewrite match_at_marker by (by apply contains_head).
    apply IH. by eapply contains_tail.
Qed.

(** What a successful repetition hands to its continuation. *)
Lemma greedy_inv {A} (p : N → bool) (s : str) (k : str → option A) (a : A) :
  greedy p s k = Some a → ∃ n : nat, k (drop n s) = Some a.
Proof.
  induction s as [|c s IH]; simpl.
  - intros Hk. by exists 0%nat.
  - destruct (p c); [|intros Hk; by exists 0%nat].
    destruct (greedy p s k) eqn:E; [|intros Hk; by exists 0%nat].
    intros [= ->]. destruct (IH eq_refl) as [n Hn]. by exists (S n).
Qed.

(** A successful match ends in its continuation, called with the groups
    of the pattern added to those it started with. *)
Lemma rmatch_inv {A} (r : regex) :
  ∀ (s : str) (g : captures) (k : str → captures → option A) (a : A),
    rmatch r s g k = Some a →
    ∃ (rest : str) (new : captures),
      k rest (new ++ g) = Some a ∧ Forall (λ c, c.1 ∈ group_ids r) new.
Proof.
  induction r as [|c|p|p|p|r1 IH1 r2 IH2|r1 IH1 r2 IH2|i r IH|];
    intros s g k a; cbn [rmatch group_ids].
  - intros Hk. by exists s, [].
  - destruct s as [|c' s]; [done|]. destruct (c =? c'); [|done].
    intros Hk. by exists s, [].
  - destruct s as [|c' s]; [done|]. destruct (p c'); [|done].
    intros Hk. by exists s, [].
  - intros [n Hk]%greedy_inv. by exists (drop n s), [].
  - destruct s as [|c' s]; [done|]. destruct (p c'); [|done].
    intros [n Hk]%greedy_inv. by exists (drop n s), [].
  - intros (rest1 & new1 & Hk1 & Hn1)%IH1.
    apply IH2 in Hk1 as (rest2 & new2 & Hk2 & Hn2).
    exists rest2, (new2 ++ new1). rewrite <- (assoc_L (++)). split; [done|].
    apply Forall_app. split; eapply Forall_impl; eauto; set_solver.
  - destruct (rmatch r1 s g k) eqn:E.
    + intros [= ->]. apply IH1 in E as (rest & new & Hk & Hn).
      exists rest, new. split; [done|]. eapply Forall_impl; eauto. set_solver.
    + intros (rest & new & Hk & Hn)%IH2.
      exists rest, new. split; [done|]. eapply Forall_impl; eauto. set_solver.
  - intros (rest & new & Hk & Hn)%IH.
    exists rest, ((i, take (length s - length rest) s) :: new). split; [done|].
    constructor; [set_solver|]. eapply Forall_impl; eauto. set_solver.
  - intros Hk. exists s, []. split; [|done].
    repeat case_match; by simplify_eq.
Qed.

Lemma rmatch_text {A} (t s : str) (g : captures)
    (k : str → captures → option A) :
  rmatch (text t) s g k
  = if startswith s t then k (drop (length t) s) g else None.
Proof.
  revert s. induction t as [|c t IH]; intros s; [done|].
  cbn [text rmatch]. destruct s as [|c' s]; [done|].
  cbn [startswith length drop]. destruct (c =? c'); [|done]. apply IH.
Qed.

(** Groups recorded later do not hide an earlier one of another number. *)
Lemma assoc_group_app (i : nat) (new g : captures) :
  Forall (λ c, c.1 ≠ i) new →
  assoc_group i (new ++ g) = assoc_group i g.
Proof.
  induction 1 as [|[j v] new Hj _ IH]; [done|].
  cbn [app assoc_group]. cbn in Hj.
  destruct (Nat.eqb_spec i j); [congruence|done].
Qed.

(** ** The bounded loop *)

Lemma bounded_loop_stop (body : str → str * bool) (n i : nat) (r r' : str) :
  body r = (r', false) → bounded_loop body (S n) i r = (S i, r').
Proof. intros E. simpl. by rewrite E. Qed.

Lemma bounded_loop_go (body : str → str * bool) (n i : nat) (r r' : str) :
  body r = (r', true) →
  bounded_loop body (S n) i r = bounded_loop body n (S i) r'.
Proof. intros E. simpl. by rewrite E. Qed.

(** The loop runs the body at least once when it may, never more often than
    [remaining] allows, and returns the string the last execution left;
    it stops early only on the body's word. *)
Lemma bounded_loop_spec (body : str → str * bool) (remaining i : nat) (value : str) :
  ∃ n : nat,
    (n ≤ remaining)%nat ∧
    bounded_loop body remaining i value = ((i + n)%nat, after body n value) ∧
    (∀ j, (S j < n)%nat → snd (body (after body j value)) = true) ∧
    (n = remaining ∨
     ((0 < n)%nat ∧ snd (body (after body (n - 1) value)) = false)).
Proof.
  revert i value. induction remaining as [|m IH]; intros i value.
  - exists 0%nat. simpl. rewrite Nat.add_0_r. repeat split; auto; intros; lia.
  - simpl. destruct (body value) as [r' go] eqn:E. destruct go.
    + destruct (IH (S i) r') as (n & Hn & Hl & Hgo & Hend).
      assert (Hshift : ∀ k, after body k r' = after body (S k) value).
      { intros k. unfold after. rewrite Nat.iter_succ_r. by rewrite E. }
      exists (S n). repeat split.
      * lia.
      * rewrite Hl, Hshift. f_equal. lia.
      * intros [|j] Hj.
        -- unfold after. simpl. by rewrite E.
        -- rewrite <- Hshift. apply Hgo. lia.
      * destruct Hend as [->|[Hpos Hstop]]; [by left|right].
        split; [lia|]. replace (S n - 1)%nat with (S (n - 1)) by lia.
        by rewrite <- Hshift.
    + exists 1%nat. repeat split.
      * lia.
      * unfold after. simpl. rewrite E. f_equal. lia.
      * intros j Hj. lia.
      * right. split; [lia|]. unfold after. simpl. by rewrite E.
Qed.

(** ** Same-package resolution *)

Section ResolverFacts.

Context `{UnicodeDB}.

(** An iteration on a string without placeholder marker changes nothing and
    ends the loop. *)
Lemma resolve_step_plain (variables : gmap str str) (package_name s : str) :
  contains s (py "$(") = false →
  resolve_step variables package_name s = (s, false).
Proof.
  intros Hs. unfold resolve_step.
  change (py "$(package)") with (py "$(" ++ py "package)").
  rewrite replace_absent by done.
  unfold re_search, nested_pattern, var_pattern.
  rewrite !search_from_marker by done.
  unfold str_eqb. by rewrite bool_decide_eq_true_2.
Qed.

Lemma resolve_variables_plain (variables : gmap str str) (package_name s : str) :
  contains s (py "$(") = false →
  resolve_variables s variables package_name = s.
Proof.
  intros Hs. unfold resolve_variables.
  by rewrite (bounded_loop_stop _ _ _ _ s) by by apply resolve_step_plain.
Qed.

(** C1. For package [foo] with variables [version = 1.2] and
    [file_name = foo-$(foo_version).tar.gz], resolving [$(foo_file_name)]
    gives [foo-1.2.tar.gz]. *)
Theorem resolve_variables_same_package_example :
  resolve_variables (py "$(foo_file_name)")
    (<[py "version" := py "1.2"]>
       (<[py "file_name" := py "foo-$(foo_version).tar.gz"]> ∅))
    (py "foo")
  = py "foo-1.2.tar.gz".
Proof. vm_compute. reflexivity. Qed.

(** C8. Same-package resolution is idempotent: a string without the
    placeholder marker is returned unchanged, whatever the variables and
    the package name. *)
Theorem resolve_variables_idempotent
    (s : str) (variables : gmap str str) (package_name : str) :
  contains s (py "$(") = false →
  resolve_variables s variables package_name = s.
Proof. apply resolve_variables_plain. Qed.

(** ** Cross-package resolution *)

Lemma index_get_keys (all_packages : package_index) (k : str) (vars : gmap str str) :
  index_get all_packages k = Some vars → k ∈ index_keys all_packages.
Proof.
  induction all_packages as [|[k' v] rest IH]; [done|].
  cbn [index_get]. unfold index_keys, str_eqb. cbn [fmap list_fmap fst].
  case_bool_decide as E.
  - intros _. subst. apply list_elem_of_here.
  - intros Hg. apply list_elem_of_further. by apply IH.
Qed.

(** Only [foo] followed by an underscore starts [foo_version]. *)
Lemma prefix_of_foo_version (k : str) :
  startswith (py "foo_version") (k ++ py "_") = true → k = py "foo".
Proof.
  intros Hk. literals.
  repeat (destruct k as [|? k]; simpl in Hk; try discriminate;
          try reflexivity;
          apply andb_prop in Hk as [->%N.eqb_eq Hk]).
Qed.

Lemma by_prefix_foo_version (all_packages : package_index) (vars : gmap str str)
    (keys : list str) :
  index_get all_packages (py "foo") = Some vars →
  vars !! py "version" = Some (py "1.2") →
  py "foo" ∈ keys →
  by_prefix all_packages (py "bar") (py "foo_version") keys = Some (py "1.2").
Proof.
  intros Hget Hver. induction keys as [|k keys IH]; intros Hin.
  - by apply elem_of_nil in Hin.
  - cbn [by_prefix].
    destruct (negb (str_eqb k (py "bar"))
              && startswith (py "foo_version") (k ++ py "_")) eqn:E.
    + apply andb_prop in E as [_ E]. apply prefix_of_foo_version in E.
      subst k. rewrite Hget.
      change (drop (length (py "foo") + 1) (py "foo_version")) with (py "version").
      rewrite Hver. by rewrite resolve_variables_plain.
    + apply elem_of_cons in Hin as [<-|Hin]; [|by apply IH].
      vm_compute in E. discriminate.
Qed.

Lemma cross_step_lib_foo_version (all_packages : package_index)
    (vars : gmap str str) :
  index_get all_packages (py "foo") = Some vars →
  vars !! py "version" = Some (py "1.2") →
  cross_step (py "bar") all_packages (py "lib-$(foo_version)")
  = (py "lib-1.2", true).
Proof.
  intros Hget Hver. unfold cross_step.
  replace (finditer cross_pattern (py "lib-$(foo_version)"))
    with [mkMatch 4 18 (py "$(foo_version)") [(1%nat, py "foo_version")]]
    by (vm_compute; reflexivity).
  change (reverse [?m]) with [m]. cbn [foldl]. unfold cross_match.
  change (group _ 1) with (py "foo_version").
  rewrite (by_prefix_foo_version _ vars) by eauto using index_get_keys.
  reflexivity.
Qed.

Lemma cross_step_plain (package_name : str) (all_packages : package_index)
    (s : str) :
  contains s (py "$(") = false →
  cross_step package_name all_packages s = (s, false).
Proof.
  intros Hs. unfold cross_step, finditer, cross_pattern.
  by rewrite finditer_go_marker.
Qed.

(** C2. Whatever else the index holds, when it knows package [foo] with
    [version = 1.2], cross-package resolution of [lib-$(foo_version)] for
    package [bar] gives [lib-1.2]: the scan over package prefixes finds
    [foo], takes [version] from it and resolves its value relative to
    [foo]. *)
Theorem resolve_cross_package_example
    (all_packages : package_index) (vars : gmap str str) :
  index_get all_packages (py "foo") = Some vars →
  vars !! py "version" = Some (py "1.2") →
  by_prefix all_packages (py "bar") (py "foo_version") (index_keys all_packages)
  = Some (py "1.2") ∧
  resolve_cross_package_variables (py "lib-$(foo_version)") (py "bar")
    all_packages
  = py "lib-1.2".
Proof.
  intros Hget Hver.
  split; [by eapply by_prefix_foo_version, index_get_keys|].
  unfold resolve_cross_package_variables.
  rewrite (bounded_loop_go _ _ _ _ (py "lib-1.2"))
    by by eapply cross_step_lib_foo_version.
  by rewrite (bounded_loop_stop _ _ _ _ (py "lib-1.2"))
    by by apply cross_step_plain.
Qed.

(** C9. Both resolutions stop within their bound: the body of
    [resolve_variables] runs once or more and at most 20 times, that of
    [resolve_cross_package_variables] at most 10 times; each function
    returns the string its last iteration left, and a loop that ends before
    the bound does so because an iteration asked for it. At the bound the
    string reached so far is returned. *)
Theorem resolution_bounded (value : str) (variables : gmap str str)
    (package_name : str) (all_packages : package_index) :
  (∃ n : nat,
     (1 ≤ n ≤ 20)%nat ∧
     bounded_loop (resolve_step variables package_name) 20 0 value
     = (n, resolve_variables value variables package_name) ∧
     resolve_variables value variables package_name
     = after (resolve_step variables package_name) n value ∧
     (n = 20%nat ∨
      snd (resolve_step variables package_name
             (after (resolve_step variables package_name) (n - 1) value))
      = false)) ∧
  (∃ n : nat,
     (1 ≤ n ≤ 10)%nat ∧
     bounded_loop (cross_step package_name all_packages) 10 0 value
     = (n, resolve_cross_package_variables value package_name all_packages) ∧
     resolve_cross_package_variables value package_name all_packages
     = after (cross_step package_name all_packages) n value ∧
     (n = 10%nat ∨
      snd (cross_step package_name all_packages
             (after (cross_step package_name all_packages) (n - 1) value))
      = false)).
Proof.
  split.
  - destruct (bounded_loop_spec (resolve_step variables package_name) 20 0 value)
      as (n & Hn & Hl & _ & Hend).
    exists n. unfold resolve_variables. rewrite Hl. cbn [snd].
    split_and!; [destruct Hend as [->|[? _]]; lia|done..|].
    destruct Hend as [->|[_ ?]]; auto.
  - destruct (bounded_loop_spec (cross_step package_name all_packages) 10 0 value)
      as (n & Hn & Hl & _ & Hend).
    exists n. unfold resolve_cross_package_variables. rewrite Hl. cbn [snd].
    split_and!; [destruct Hend as [->|[? _]]; lia|done..|].
    destruct Hend as [->|[_ ?]]; auto.
Qed.

(** A variable that refers to itself: the loop gives up after 20 rounds
    with the string it has. *)
Example resolve_variables_cycle :
  bounded_loop
    (resolve_step (<[py "a" := py "x$(foo_a)"]> ∅) (py "foo")) 20 0
    (py "$(foo_a)")
  = (20%nat, py "xxxxxxxxxxxxxxxxxxxx$(foo_a)").
Proof. vm_compute. reflexivity. Qed.

(** Two packages that refer to each other: 10 rounds, then the string
    reached. *)
Example resolve_cross_package_cycle :
  bounded_loop
    (cross_step (py "bar")
       [(py "foo", <[py "a" := py "-$(baz_a)"]> ∅);
        (py "baz", <[py "a" := py "$(foo_a)"]> ∅)]) 10 0
    (py "$(foo_a)")
  = (10%nat, py "-----$(foo_a)").
Proof. vm_compute. reflexivity. Qed.

End ResolverFacts.

(** ** The variable extractor *)

Section ExtractorFacts.

Context `{UnicodeDB}.

Lemma rmatch_grp_plus {A} (i : nat) (p : N → bool) (s : str) (g : captures)
    (k : str → captures → option A) (a : A) :
  rmatch (Grp i (Plus p)) s g k = Some a →
  ∃ (v rest : str), v ≠ [] ∧ k rest ((i, v) :: g) = Some a.
Proof.
  cbn [rmatch]. destruct s as [|c s]; [done|]. destruct (p c); [|done].
  intros [n Hk]%greedy_inv.
  eexists _, _. split; [|exact Hk].
  assert (length (drop n s) ≤ length s)%nat by (rewrite length_drop; lia).
  cbn [length].
  replace (S (length s) - length (drop n s))%nat
    with (S (length s - length (drop n s))) by lia.
  done.
Qed.

(** A line that matches the assignment pattern starts with the package
    placeholder and names a variable. *)
Lemma assign_match_inv (s : str) (m : Match) :
  re_match assign_pattern s = Some m →
  startswith s (py "$(package)_") = true ∧ group m 1 ≠ [].
Proof.
  unfold re_match, match_at, assign_pattern.
  change (rmatch (?a ⋅ ?b) ?s ?g ?k)
    with (rmatch a s g (λ rest g', rmatch b rest g' k)).
  rewrite rmatch_text. destruct (startswith s _); [|done].
  change (rmatch (?a ⋅ ?b) ?s ?g ?k)
    with (rmatch a s g (λ rest g', rmatch b rest g' k)).
  intros (v & rest & Hv & Hk)%rmatch_grp_plus.
  apply rmatch_inv in Hk as (rest' & new & Hk & Hnew).
  injection Hk as <-. split; [done|].
  unfold group. cbn [m_groups]. rewrite assoc_group_app.
  - done.
  - eapply Forall_impl; [exact Hnew|]. intros [j w] Hj. cbn in *.
    apply list_elem_of_singleton in Hj. by subst.
Qed.

(** The keys of the dictionary once the variable under construction is
    stored. *)
Lemma flush_is_Some (st : scan) (n : str) :
  is_Some (flush st !! n) ↔
  is_Some (variables st !! n) ∨ (current_var st = Some n ∧ n ≠ []).
Proof.
  unfold flush. destruct (current_var st) as [[|c name]|].
  - split; [by left|]. by intros [?|[[= <-] ?]].
  - destruct (decide (n = c :: name)) as [->|Hne].
    + rewrite lookup_insert_eq. split; [by right|eauto].
    + rewrite lookup_insert_ne by done.
      split; [by left|]. intros [?|[[= ?] ?]]; done.
  - split; [by left|]. by intros [?|[[=] ?]].
Qed.

(** What the loop does on an assignment line: the same in every state. *)
Lemma scan_line_assign (st : scan) (line : str) (m : Match) :
  re_match assign_pattern (strip line) = Some m →
  scan_line st line
  = mkScan (flush st) (Some (group m 1))
      [re_sub cond_suffix [] (strip (group m 2))]
      (in_conditional st) (conditional_depth st).
Proof.
  intros Hm. destruct (assign_match_inv _ _ Hm) as [Hp _].
  unfold scan_line. revert Hm Hp.
  generalize (strip line). intros [|c rest] Hm Hp; [done|].
  assert (c = chr "$") as ->.
  { literals. cbn [startswith] in Hp.
    by apply andb_prop in Hp as [<-%N.eqb_eq _]. }
  rewrite Hm. rewrite bool_decide_eq_false_2 by done.
  literals. by cbn [startswith N.eqb Pos.eqb orb andb chr N_of_ascii N_of_digits N.add N.mul].
Qed.

(** Inside a conditional block a line that is no assignment leaves the
    variable under construction as it is. *)
Lemma scan_line_conditional (st : scan) (line : str) :
  in_conditional st = true →
  re_match assign_pattern (strip line) = None →
  variables (scan_line st line) = variables st ∧
  current_var (scan_line st line) = current_var st ∧
  current_value (scan_line st line) = current_value st.
Proof.
  intros Hc Hm. unfold scan_line. rewrite Hm, Hc.
  rewrite andb_false_r. by repeat case_match.
Qed.

Lemma scan_line_keeps (st : scan) (line n : str) :
  is_Some (flush st !! n) → is_Some (flush (scan_line st line) !! n).
Proof.
  intros Hn. destruct (re_match assign_pattern (strip line)) as [m|] eqn:Hm.
  - rewrite (scan_line_assign _ _ _ Hm). apply flush_is_Some. by left.
  - apply flush_is_Some in Hn. apply flush_is_Some.
    unfold scan_line. rewrite Hm. by repeat case_match.
Qed.

Lemma foldl_scan_keeps (lines : list str) (st : scan) (n : str) :
  is_Some (flush st !! n) → is_Some (flush (foldl scan_line st lines) !! n).
Proof.
  revert st. induction lines as [|l lines IH]; intros st Hn; [done|].
  cbn [foldl]. by apply IH, scan_line_keeps.
Qed.

Lemma foldl_scan_assign (lines : list str) (st : scan) (line : str) (m : Match) :
  line ∈ lines →
  re_match assign_pattern (strip line) = Some m →
  is_Some (flush (foldl scan_line st lines) !! group m 1).
Proof.
  intros Hin Hm. revert st.
  induction lines as [|l lines IH]; intros st; [by apply elem_of_nil in Hin|].
  cbn [foldl]. apply elem_of_cons in Hin as [<-|Hin]; [|by apply IH].
  apply foldl_scan_keeps. rewrite (scan_line_assign _ _ _ Hm).
  apply flush_is_Some. right. split; [done|].
  by apply assign_match_inv in Hm as [_ ?].
Qed.

Lemma parse_mk_file_Some (content name : str) (vars : gmap str str) :
  parse_mk_file content = (Some name, vars) →
  name ≠ [] ∧ find_package (readlines content) = Some name ∧
  vars = flush (foldl scan_line scan_init (readlines content)).
Proof.
  unfold parse_mk_file.
  destruct (find_package (readlines content)) as [[|c n]|]; cbn; try done.
  by intros [= <- <-].
Qed.

(** The text after the first [=] of a line that starts with [package=]. *)
Lemma split1_package (l : str) :
  startswith l (py "package=") = true →
  (split1 (chr "=") l).2 = Some (drop 8 l).
Proof.
  intros Hl. literals.
  do 8 (destruct l as [|? l]; [done|]; cbn [startswith] in Hl;
        apply andb_prop in Hl as [<-%N.eqb_eq Hl]).
  reflexivity.
Qed.

Lemma find_package_find (lines : list str) :
  find_package lines
  = (λ l, strip (drop 8 l))
      <$> List.find (λ l, startswith l (py "package=")) (strip <$> lines).
Proof.
  induction lines as [|line lines IH]; [done|].
  cbn [find_package fmap list_fmap List.find].
  destruct (startswith (strip line) (py "package=")) eqn:E; [|exact IH].
  by rewrite split1_package.
Qed.

(** C3, as the program has it. The package name is what follows [package=]
    (no blank before the equals sign) on the first line that, stripped,
    starts with it, blanks around the value removed; when there is no such
    line, or that value is empty, extraction gives no name and no
    variables. *)
Theorem parse_mk_file_package_name (content : str) :
  match List.find (λ l, startswith l (py "package=")) (strip <$> readlines content) with
  | Some l =>
      if bool_decide (strip (drop 8 l) = [])
      then parse_mk_file content = (None, ∅)
      else (parse_mk_file content).1 = Some (strip (drop 8 l))
  | None => parse_mk_file content = (None, ∅)
  end.
Proof.
  unfold parse_mk_file. rewrite find_package_find.
  destruct (List.find _ _) as [l|]; [|done]. cbn [fmap option_fmap option_map].
  by destruct (strip (drop 8 l)).
Qed.

(** C10. An assignment line is taken up in every state of the scan, inside
    a conditional block as outside: it stores the variable under
    construction and starts the new one, and leaves the conditional state
    alone. Inside a conditional block the other lines add nothing to the
    variable under construction. So every assignment line of a file with a
    package name has its variable among the extracted ones. *)
Theorem assignment_in_conditional_extracted :
  (∀ (st : scan) (line : str) (m : Match),
     re_match assign_pattern (strip line) = Some m →
     scan_line st line
     = mkScan (flush st) (Some (group m 1))
         [re_sub cond_suffix [] (strip (group m 2))]
         (in_conditional st) (conditional_depth st)) ∧
  (∀ (st : scan) (line : str),
     in_conditional st = true →
     re_match assign_pattern (strip line) = None →
     variables (scan_line st line) = variables st ∧
     current_var (scan_line st line) = current_var st ∧
     current_value (scan_line st line) = current_value st) ∧
  (∀ (content name : str) (vars : gmap str str) (line : str) (m : Match),
     parse_mk_file content = (Some name, vars) →
     line ∈ readlines content →
     re_match assign_pattern (strip line) = Some m →
     is_Some (vars !! group m 1)).
Proof.
  split; [exact scan_line_assign|]. split; [exact scan_line_conditional|].
  intros content name vars line m (_ & _ & ->)%parse_mk_file_Some Hin Hm.
  by eapply foldl_scan_assign.
Qed.

End ExtractorFacts.

(** ** Per-file orchestration *)

Section OrchestrationFacts.

Context `{UnicodeDB}.

(** C6. A file with a package name and no [download_path] is skipped, with
    the message that names the variable; it is not an error. *)
Theorem missing_download_path_is_skip
    (head : str → probe) (stem content : str)
    (all_packages : option package_index) (name : str) (vars : gmap str str) :
  parse_mk_file content = (Some name, vars) →
  vars !! py "download_path" = None →
  let r := check_dependency_file head stem content all_packages in
  r_package r = name ∧
  r_status r = py "skip" ∧
  r_message r = py "Missing required variable (download_path)" ∧
  r_status r ≠ py "error".
Proof.
  intros Hp Hd. destruct (parse_mk_file_Some _ _ _ Hp) as (Hn & _ & _).
  unfold check_dependency_file. rewrite Hp.
  destruct name as [|c name]; [done|]. rewrite Hd. cbn.
  repeat split. literals. done.
Qed.

(** C7. The choice of the file variable, the step that follows the test for
    [download_path]: [file_name] is chosen for [zeromq] when it has one;
    otherwise [download_file] when present, otherwise [file_name] when
    present; the variable chosen is one the package has. With neither of
    the two the file is skipped with the message that names both. With a
    variable chosen, it is the value of that variable the file name of the
    URL is resolved from. *)
Theorem file_var_selection (package_name : str) (vars : gmap str str) :
  (package_name = py "zeromq" → is_Some (vars !! py "file_name") →
   choose_file_var package_name vars = Some (py "file_name")) ∧
  (¬ (package_name = py "zeromq" ∧ is_Some (vars !! py "file_name")) →
   is_Some (vars !! py "download_file") →
   choose_file_var package_name vars = Some (py "download_file")) ∧
  (¬ (package_name = py "zeromq" ∧ is_Some (vars !! py "file_name")) →
   vars !! py "download_file" = None → is_Some (vars !! py "file_name") →
   choose_file_var package_name vars = Some (py "file_name")) ∧
  (∀ file_var, choose_file_var package_name vars = Some file_var →
   is_Some (vars !! file_var)) ∧
  (vars !! py "download_file" = None → vars !! py "file_name" = None →
   choose_file_var package_name vars = None ∧
   ∀ (head : str → probe) (stem content : str)
     (all_packages : option package_index),
     parse_mk_file content = (Some package_name, vars) →
     is_Some (vars !! py "download_path") →
     let r := check_dependency_file head stem content all_packages in
     r_package r = package_name ∧
     r_status r = py "skip" ∧
     r_message r = py "Missing required variable (download_file or file_name)") ∧
  (∀ (head : str → probe) (stem content : str)
     (all_packages : option package_index) (dp file_var raw : str),
     parse_mk_file content = (Some package_name, vars) →
     vars !! py "download_path" = Some dp →
     choose_file_var package_name vars = Some file_var →
     vars !! file_var = Some raw →
     let cross s :=
       match all_packages with
       | Some ((_ :: _) as known) =>
           resolve_cross_package_variables s package_name known
       | _ => s
       end in
     let path := cross (resolve_variables dp vars package_name) in
     let name := cross (resolve_variables raw vars package_name) in
     let r := check_dependency_file head stem content all_packages in
     if contains path (py "$(") || contains name (py "$(")
     then r_status r = py "skip" ∧ r_url r = None
     else
       match check_url head (build_url path name) (Some package_name) with
       | Return (success, code, message) =>
           r = mkResult package_name (Some (build_url path name))
                 (if success then py "ok" else py "error") (Some code) message
       | Raise e => r_status r = py "error" ∧ r_url r = None
       end).
Proof.
  split_and!;
    [unfold choose_file_var..|
     intros head stem content all_packages dp file_var raw Hp Hdp Hc Hraw].
  - intros Hz Hf. repeat case_bool_decide; naive_solver.
  - intros Hz Hd. repeat case_bool_decide; naive_solver.
  - intros Hz Hd Hf. rewrite Hd in *. repeat case_bool_decide; naive_solver.
  - intros file_var. repeat case_bool_decide; naive_solver.
  - intros Hd Hf. split; [rewrite Hd, Hf; by rewrite andb_false_r|].
    intros head stem content all_packages Hp [dp Hdp].
    destruct (parse_mk_file_Some _ _ _ Hp) as (Hn & _ & _).
    unfold check_dependency_file. rewrite Hp.
    destruct package_name as [|c name]; [done|]. rewrite Hdp.
    unfold choose_file_var. rewrite Hd, Hf. rewrite andb_false_r. done.
  - destruct (parse_mk_file_Some _ _ _ Hp) as (Hn & _ & _).
    unfold check_dependency_file. rewrite Hp.
    destruct package_name as [|c name]; [done|].
    rewrite Hdp, Hc, Hraw. cbn [default].
    destruct all_packages as [[|entry known]|]; cbn zeta;
      (destruct (contains _ _ || contains _ _); [done|];
       by destruct (check_url _ _ _) as [[[[|] code] message]|e]).
Qed.

End OrchestrationFacts.

(** ** The URL builder *)

Lemma lstrip_slash_decomp (f : str) :
  ∃ m : nat,
    f = replicate m (chr "/") ++ lstrip_by is_slash f ∧
    startswith (lstrip_by is_slash f) (py "/") = false.
Proof.
  induction f as [|c f (m & Hm & Hs)]; [by exists 0%nat|].
  cbn [lstrip_by]. destruct (is_slash c) eqn:E.
  - exists (S m). apply N.eqb_eq in E as ->. cbn [replicate app].
    split; [by f_equal|done].
  - exists 0%nat. split; [done|]. unfold is_slash in E.
    change (py "/") with [chr "/"]. cbn [startswith].
    by rewrite N.eqb_sym, E.
Qed.

Lemma rstrip_slash_decomp (b : str) :
  ∃ n : nat,
    b = rstrip_by is_slash b ++ replicate n (chr "/") ∧
    endswith (rstrip_by is_slash b) (py "/") = false.
Proof.
  destruct (lstrip_slash_decomp (reverse b)) as (n & Hn & Hs).
  exists n. unfold rstrip_by, endswith. rewrite reverse_involutive.
  split; [|exact Hs].
  rewrite <- (reverse_involutive b) at 1. rewrite Hn at 1.
  by rewrite reverse_app, reverse_replicate.
Qed.

(** C4, as the program has it. The URL is the base path without its
    trailing slashes, one slash, and the file name without its leading
    slashes, however many there are of either; the two examples of the
    specification give the same URL. *)
Theorem build_url_joins (download_path file_name : str) :
  (∃ (base name : str) (n m : nat),
     download_path = base ++ replicate n (chr "/") ∧
     endswith base (py "/") = false ∧
     file_name = replicate m (chr "/") ++ name ∧
     startswith name (py "/") = false ∧
     build_url download_path file_name = base ++ py "/" ++ name) ∧
  build_url (py "https://example.org/dl/") (py "/archive-1.0.tar.gz")
  = py "https://example.org/dl/archive-1.0.tar.gz" ∧
  build_url (py "https://example.org/dl") (py "archive-1.0.tar.gz")
  = py "https://example.org/dl/archive-1.0.tar.gz".
Proof.
  split; [|by vm_compute].
  destruct (rstrip_slash_decomp download_path) as (n & Hb & He).
  destruct (lstrip_slash_decomp file_name) as (m & Hf & Hs).
  exists (rstrip_by is_slash download_path), (lstrip_by is_slash file_name), n, m.
  split_and!; try done. unfold build_url. by rewrite He.
Qed.

(** ** The availability checker *)

(** C5. The classification of a probe: 200 is reachable with [Ok], 404
    unreachable with [Not Found], 418 reachable for [fontconfig], every
    other status unreachable with [HTTP] and the status, so 418 for another
    package is unreachable with [HTTP 418]; a timeout, a connection failure
    and too many redirects are unreachable with code 0 and their message.
    Every response and every request exception gives a triple. *)
Theorem check_url_classification
    (head : str → probe) (url : str) (package_name : option str) :
  (head url = Response 200 →
   check_url head url package_name = Return (true, 200%Z, py "Ok")) ∧
  (head url = Response 404 →
   check_url head url package_name = Return (false, 404%Z, py "Not Found")) ∧
  (head url = Response 418 → package_name = Some (py "fontconfig") →
   ∃ message, check_url head url package_name = Return (true, 418%Z, message)) ∧
  (∀ s : Z, head url = Response s →
   s ≠ 200%Z → s ≠ 404%Z →
   ¬ (s = 418%Z ∧ package_name = Some (py "fontconfig")) →
   check_url head url package_name
   = Return (false, s, py "HTTP " ++ str_of_Z s)) ∧
  (head url = Response 418 → package_name ≠ Some (py "fontconfig") →
   check_url head url package_name = Return (false, 418%Z, py "HTTP 418")) ∧
  (head url = Timeout →
   check_url head url package_name = Return (false, 0%Z, py "Timeout")) ∧
  (head url = ConnectionError →
   check_url head url package_name = Return (false, 0%Z, py "Connection Error")) ∧
  (head url = TooManyRedirects →
   check_url head url package_name = Return (false, 0%Z, py "Too Many Redirects")) ∧
  ((∀ e, head url ≠ OtherException e) →
   ∃ reachable code message,
     check_url head url package_name = Return (reachable, code, message)).
Proof.
  unfold check_url. split_and!.
  - by intros ->.
  - by intros ->.
  - intros -> ->. eexists. cbn. by rewrite bool_decide_eq_true_2.
  - intros s -> H200 H404 H418.
    rewrite (proj2 (Z.eqb_neq s 200)), (proj2 (Z.eqb_neq s 404)) by done.
    destruct (Z.eqb_spec s 418) as [->|]; [|done].
    rewrite bool_decide_eq_false_2 by naive_solver. done.
  - intros -> Hp. cbn. by rewrite bool_decide_eq_false_2.
  - by intros ->.
  - by intros ->.
  - by intros ->.
  - intros He. destruct (head url) eqn:E; try by eauto.
    + repeat case_match; eauto.
    + by destruct (He e).
Qed.

(** * The properties at sample inputs *)

Lemma resolve_cross_package_example_holds :
  by_prefix (H:=latin1_db) sample_index (py "bar") (py "foo_version")
    (index_keys sample_index)
  = Some (py "1.2") ∧
  resolve_cross_package_variables (H:=latin1_db) (py "lib-$(foo_version)")
    (py "bar") sample_index
  = py "lib-1.2".
Proof.
  apply (resolve_cross_package_example (H:=latin1_db) sample_index
           {[py "version" := py "1.2"]});
    vm_compute; reflexivity.
Defined.

Lemma resolve_variables_idempotent_holds :
  resolve_variables (H:=latin1_db) (py "foo-1.2.tar.gz")
    {[py "version" := py "1.2"]} (py "foo")
  = py "foo-1.2.tar.gz".
Proof.
  apply (resolve_variables_idempotent (H:=latin1_db)). vm_compute. reflexivity.
Defined.

Lemma assignment_in_conditional_extracted_holds :
  scan_line (H:=latin1_db) (mkScan ∅ None [] true 1)
    (py "$(package)_download_file=v1.tar.gz" ++ nl)
  = mkScan ∅ (Some (py "download_file")) [py "v1.tar.gz"] true 1 ∧
  current_value
    (scan_line (H:=latin1_db)
       (mkScan ∅ (Some (py "version")) [py "1.2"] true 1) (py "  more" ++ nl))
  = [py "1.2"] ∧
  is_Some ((parse_mk_file (H:=latin1_db) conditional_mk).2 !! py "download_file").
Proof.
  destruct (assignment_in_conditional_extracted (H:=latin1_db))
    as (Hline & Hcond & Hfile).
  split_and!.
  - apply (Hline (mkScan ∅ None [] true 1)
             (py "$(package)_download_file=v1.tar.gz" ++ nl)
             (mkMatch 0 34 (py "$(package)_download_file=v1.tar.gz")
                [(2%nat, py "v1.tar.gz"); (1%nat, py "download_file")])).
    vm_compute. reflexivity.
  - apply (Hcond (mkScan ∅ (Some (py "version")) [py "1.2"] true 1)
             (py "  more" ++ nl)); vm_compute; reflexivity.
  - apply (Hfile conditional_mk (py "foo")
             (parse_mk_file (H:=latin1_db) conditional_mk).2
             (py "$(package)_download_file=v1.tar.gz" ++ nl)
             (mkMatch 0 34 (py "$(package)_download_file=v1.tar.gz")
                [(2%nat, py "v1.tar.gz"); (1%nat, py "download_file")])).
    + vm_compute. reflexivity.
    + vm_compute. apply list_elem_of_In. simpl. tauto.
    + vm_compute. reflexivity.
Defined.

Lemma missing_download_path_is_skip_holds :
  r_package (check_dependency_file (H:=latin1_db) (λ _, Response 200)
               (py "conditional") conditional_mk (Some sample_index))
  = py "foo" ∧
  r_status (check_dependency_file (H:=latin1_db) (λ _, Response 200)
              (py "conditional") conditional_mk (Some sample_index))
  = py "skip" ∧
  r_message (check_dependency_file (H:=latin1_db) (λ _, Response 200)
               (py "conditional") conditional_mk (Some sample_index))
  = py "Missing required variable (download_path)" ∧
  r_status (check_dependency_file (H:=latin1_db) (λ _, Response 200)
              (py "conditional") conditional_mk (Some sample_index))
  ≠ py "error".
Proof.
  apply (missing_download_path_is_skip (H:=latin1_db) (λ _, Response 200)
           (py "conditional") conditional_mk (Some sample_index) (py "foo")
           {[py "download_file" := py "v1.tar.gz"]});
    vm_compute; reflexivity.
Defined.

Lemma file_var_selection_holds :
  choose_file_var (py "zeromq")
    {[py "download_file" := py "v4.3.1.tar.gz";
      py "file_name" := py "zeromq-4.3.1.tar.gz"]}
  = Some (py "file_name") ∧
  choose_file_var (py "foo")
    {[py "download_file" := py "v1.tar.gz"; py "file_name" := py "foo.tar.gz"]}
  = Some (py "download_file") ∧
  choose_file_var (py "foo") {[py "file_name" := py "foo.tar.gz"]}
  = Some (py "file_name") ∧
  r_message (check_dependency_file (H:=latin1_db) (λ _, Response 200)
               (py "path_only") path_only_mk None)
  = py "Missing required variable (download_file or file_name)" ∧
  check_dependency_file (H:=latin1_db) (λ _, Response 200)
    (py "zeromq") zeromq_mk None
  = mkResult (py "zeromq")
      (Some (py "https://example.org/zeromq/zeromq-4.3.1.tar.gz"))
      (py "ok") (Some 200%Z) (py "Ok").
Proof.
  split_and!.
  - destruct (file_var_selection (H:=latin1_db) (py "zeromq")
                {[py "download_file" := py "v4.3.1.tar.gz";
                  py "file_name" := py "zeromq-4.3.1.tar.gz"]})
      as (Hz & _).
    apply Hz; [reflexivity|]. vm_compute. eexists. reflexivity.
  - destruct (file_var_selection (H:=latin1_db) (py "foo")
                {[py "download_file" := py "v1.tar.gz";
                  py "file_name" := py "foo.tar.gz"]})
      as (_ & Hd & _).
    apply Hd.
    + intros [E _]. vm_compute in E. discriminate E.
    + vm_compute. eexists. reflexivity.
  - destruct (file_var_selection (H:=latin1_db) (py "foo")
                {[py "file_name" := py "foo.tar.gz"]})
      as (_ & _ & Hf & _).
    apply Hf.
    + intros [E _]. vm_compute in E. discriminate E.
    + vm_compute. reflexivity.
    + vm_compute. eexists. reflexivity.
  - destruct (file_var_selection (H:=latin1_db) (py "foo")
                {[py "download_path" := py "https://example.org/dl"]})
      as (_ & _ & _ & _ & Hnone).
    apply Hnone.
    + vm_compute. reflexivity.
    + vm_compute. reflexivity.
    + vm_compute. reflexivity.
    + vm_compute. eexists. reflexivity.
  - destruct (file_var_selection (H:=latin1_db) (py "zeromq")
                (parse_mk_file (H:=latin1_db) zeromq_mk).2)
      as (_ & _ & _ & _ & _ & Huse).
    apply (Huse (λ _, Response 200) (py "zeromq") zeromq_mk None
             (py "https://example.org/zeromq") (py "file_name")
             (py "$(package)-$($(package)_version).tar.gz")).
    + vm_compute. reflexivity.
    + vm_compute. reflexivity.
    + vm_compute. reflexivity.
    + vm_compute. reflexivity.
Defined.

Lemma check_url_classification_holds :
  check_url (λ _, Response 200) (py "https://example.org/a") (Some (py "foo"))
  = Return (true, 200%Z, py "Ok") ∧
  check_url (λ _, Response 404) (py "https://example.org/a") (Some (py "foo"))
  = Return (false, 404%Z, py "Not Found") ∧
  (∃ message,
     check_url (λ _, Response 418) (py "https://example.org/a")
       (Some (py "fontconfig"))
     = Return (true, 418%Z, message)) ∧
  check_url (λ _, Response 503) (py "https://example.org/a") (Some (py "foo"))
  = Return (false, 503%Z, py "HTTP 503") ∧
  check_url (λ _, Response 418) (py "https://example.org/a") (Some (py "foo"))
  = Return (false, 418%Z, py "HTTP 418") ∧
  check_url (λ _, Timeout) (py "https://example.org/a") None
  = Return (false, 0%Z, py "Timeout") ∧
  check_url (λ _, ConnectionError) (py "https://example.org/a") None
  = Return (false, 0%Z, py "Connection Error") ∧
  check_url (λ _, TooManyRedirects) (py "https://example.org/a") None
  = Return (false, 0%Z, py "Too Many Redirects") ∧
  (∃ reachable code message,
     check_url (λ _, RequestException (py "Invalid URL"))
       (py "https://example.org/a") None
     = Return (reachable, code, message)).
Proof.
  pose proof check_url_classification as Hc.
  split_and!.
  - apply (Hc (λ _, Response 200)). reflexivity.
  - apply (Hc (λ _, Response 404)). reflexivity.
  - destruct (Hc (λ _, Response 418) (py "https://example.org/a")
                (Some (py "fontconfig"))) as (_ & _ & Hf & _).
    apply Hf; reflexivity.
  - destruct (Hc (λ _, Response 503) (py "https://example.org/a")
                (Some (py "foo"))) as (_ & _ & _ & Hs & _).
    apply (Hs 503%Z); [reflexivity|lia|lia|]. intros [E _]. discriminate E.
  - destruct (Hc (λ _, Response 418) (py "https://example.org/a")
                (Some (py "foo"))) as (_ & _ & _ & _ & Ht & _).
    apply Ht; [reflexivity|]. intros E. vm_compute in E. discriminate E.
  - apply (Hc (λ _, Timeout)). reflexivity.
  - apply (Hc (λ _, ConnectionError)). reflexivity.
  - apply (Hc (λ _, TooManyRedirects)). reflexivity.
  - apply (Hc (λ _, RequestException (py "Invalid URL"))). intros e E.
    discriminate E.
Defined.

(** * Where the specification and the program part *)

(** C3. The first [package=] line has no value and a later one has: the
    name is not taken from either, extraction gives no name. A line
    [package = foo], with blanks around the equals sign, is not a package
    line for the program. *)
Lemma parse_mk_file_empty_first_value :
  strip <$> readlines empty_name_mk = [py "package="; py "package=foo"] ∧
  parse_mk_file (H:=latin1_db) empty_name_mk = (None, ∅) ∧
  parse_mk_file (H:=latin1_db) (py "package = foo" ++ nl) = (None, ∅).
Proof. split_and!; vm_compute; reflexivity. Qed.

(** C4. Two trailing slashes: the program removes both, the specification's
    words remove one. *)
Lemma build_url_strips_every_slash :
  build_url (py "https://example.org/dl//") (py "archive-1.0.tar.gz")
  = py "https://example.org/dl/archive-1.0.tar.gz" ∧
  build_url_as_specified (py "https://example.org/dl//") (py "archive-1.0.tar.gz")
  = py "https://example.org/dl//archive-1.0.tar.gz" ∧
  build_url (py "https://example.org/dl//") (py "archive-1.0.tar.gz")
  ≠ build_url_as_specified (py "https://example.org/dl//") (py "archive-1.0.tar.gz").
Proof. split_and!; vm_compute; [reflexivity|reflexivity|discriminate]. Qed.

(** * Further properties of the program *)

(** ** Resolution *)

Lemma replace_missing (s old new : str) :
  old ≠ [] → contains s old = false → replace s old new = s.
Proof.
  intros Ho Hs. rewrite <- (app_nil_r old). by apply replace_absent.
Qed.

Section ResolutionMore.

Context `{UnicodeDB}.

(** X1. The package placeholder alone: when the string is free of
    placeholder markers once [$(package)] is replaced by the package name,
    that string is the result. *)
Theorem resolve_variables_package_placeholder
    (s : str) (variables : gmap str str) (package_name : str) :
  contains (replace s (py "$(package)") package_name) (py "$(") = false →
  resolve_variables s variables package_name
  = replace s (py "$(package)") package_name.
Proof.
  intros Hr. unfold resolve_variables.
  assert (Hstep : ∃ changed,
    resolve_step variables package_name s
    = (replace s (py "$(package)") package_name, changed)).
  { unfold resolve_step, re_search, nested_pattern, var_pattern.
    rewrite !search_from_marker by done. eauto. }
  destruct Hstep as [[|] Hstep].
  - rewrite (bounded_loop_go _ _ _ _ _ Hstep).
    by rewrite (bounded_loop_stop _ _ _ _ _ (resolve_step_plain _ _ _ Hr)).
  - by rewrite (bounded_loop_stop _ _ _ _ _ Hstep).
Qed.

Lemma by_prefix_own (all_packages : package_index)
    (package_name full_var : str) (keys : list str) :
  (∀ k, k ∈ keys → k = package_name) →
  by_prefix all_packages package_name full_var keys = None.
Proof.
  induction keys as [|k keys IH]; intros Hk; [done|].
  cbn [by_prefix]. rewrite (Hk k) by apply list_elem_of_here.
  unfold str_eqb at 1. rewrite bool_decide_eq_true_2 by done.
  cbn [negb andb]. apply IH. intros k' Hk'. apply Hk. by apply list_elem_of_further.
Qed.

Lemma by_last_underscore_own (all_packages : package_index)
    (package_name full_var : str) :
  (∀ k, k ∈ index_keys all_packages → k = package_name) →
  by_last_underscore all_packages package_name full_var = None.
Proof.
  intros Hk. unfold by_last_underscore.
  destruct (rsplit1 _ _) as [[p v]|]; [|done].
  unfold str_eqb. case_bool_decide as E; [done|]. cbn [negb].
  destruct (index_get all_packages p) as [vars|] eqn:Hg; [|done].
  apply index_get_keys, Hk in Hg. done.
Qed.

Lemma cross_step_own (package_name : str) (all_packages : package_index)
    (s : str) :
  (∀ k, k ∈ index_keys all_packages → k = package_name) →
  cross_step package_name all_packages s = (s, false).
Proof.
  intros Hk. unfold cross_step.
  induction (reverse (finditer cross_pattern s)) as [|m ms IH] using rev_ind;
    [done|].
  rewrite foldl_snoc, IH. unfold cross_match.
  by rewrite by_prefix_own, by_last_underscore_own.
Qed.

(** X2. Cross-package resolution never takes a value from the package
    being resolved: with an index that knows no other package (an empty
    index too) every string comes back unchanged. *)
Theorem resolve_cross_package_never_own
    (s package_name : str) (all_packages : package_index) :
  (∀ k, k ∈ index_keys all_packages → k = package_name) →
  resolve_cross_package_variables s package_name all_packages = s.
Proof.
  intros Hk. unfold resolve_cross_package_variables.
  by rewrite (bounded_loop_stop _ _ _ _ _ (cross_step_own _ _ _ Hk)).
Qed.

(** X3. Cross-package resolution of a string without placeholder marker
    returns it unchanged, whatever the index. *)
Theorem resolve_cross_package_idempotent
    (s package_name : str) (all_packages : package_index) :
  contains s (py "$(") = false →
  resolve_cross_package_variables s package_name all_packages = s.
Proof.
  intros Hs. unfold resolve_cross_package_variables.
  by rewrite (bounded_loop_stop _ _ _ _ _ (cross_step_plain _ _ _ Hs)).
Qed.

End ResolutionMore.

(** ** The URL builder and the availability checker *)

Lemma lstrip_by_replicate (p : N → bool) (c : N) (n : nat) (s : str) :
  p c = true → lstrip_by p (replicate n c ++ s) = lstrip_by p s.
Proof. intros Hc. induction n as [|n IH]; [done|]. cbn. by rewrite Hc. Qed.

Lemma rstrip_by_replicate (p : N → bool) (c : N) (n : nat) (s : str) :
  p c = true → rstrip_by p (s ++ replicate n c) = rstrip_by p s.
Proof.
  intros Hc. unfold rstrip_by.
  by rewrite reverse_app, reverse_replicate, lstrip_by_replicate.
Qed.

(** X4. Slashes at the join do not count: any number of slashes added at
    the end of the download path or at the head of the file name leaves
    the URL as it is. *)
Theorem build_url_slash_insensitive (download_path file_name : str) (n m : nat) :
  build_url (download_path ++ replicate n (chr "/"))
    (replicate m (chr "/") ++ file_name)
  = build_url download_path file_name.
Proof.
  unfold build_url.
  by rewrite rstrip_by_replicate, lstrip_by_replicate.
Qed.

(** X5. A URL counts as reachable only on a response with status 200, or
    with status 418 for the package [fontconfig]; the code reported is the
    status of that response. *)
Theorem check_url_reachable_iff (head : str → probe) (url : str)
    (package_name : option str) (code : Z) (message : str) :
  check_url head url package_name = Return (true, code, message) ↔
  head url = Response code ∧
  ((code = 200%Z ∧ message = py "Ok") ∨
   (code = 418%Z ∧ package_name = Some (py "fontconfig") ∧
    message = py "Ok (418 - special case)")).
Proof.
  unfold check_url. split.
  - destruct (head url) as [s| | | |e|e]; try discriminate.
    destruct (Z.eqb_spec s 200) as [->|].
    { intros [= <- <-]. eauto. }
    destruct (Z.eqb_spec s 404) as [->|]; [discriminate|].
    destruct (Z.eqb_spec s 418) as [->|]; [|discriminate].
    cbn [andb]. case_bool_decide; [|discriminate].
    intros [= <- <-]. eauto 10.
  - intros [-> [[-> ->]|(-> & -> & ->)]]; [done|].
    cbn. by rewrite bool_decide_eq_true_2.
Qed.

(** X6. The exceptions [check_url] catches give code 0, and a response
    gives its own status as the code: a result is never reachable with
    code 0 unless the server answered with status 0. *)
Theorem check_url_code (head : str → probe) (url : str)
    (package_name : option str) (reachable : bool) (code : Z) (message : str) :
  check_url head url package_name = Return (reachable, code, message) →
  head url = Response code ∨
  (reachable = false ∧ code = 0%Z ∧
   (head url = Timeout ∨ head url = ConnectionError ∨
    head url = TooManyRedirects ∨ ∃ e, head url = RequestException e)).
Proof.
  unfold check_url. destruct (head url) as [s| | | |e|e]; try discriminate.
  - repeat case_match; intros [= <- <- <-]; by left.
  - intros [= <- <- <-]. right. eauto 10.
  - intros [= <- <- <-]. right. eauto 10.
  - intros [= <- <- <-]. right. eauto 10.
  - intros [= <- <- <-]. right. eauto 10.
Qed.

(** ** The variable extractor *)

Lemma lstrip_by_length (p : N → bool) (s : str) :
  (length (lstrip_by p s) ≤ length s)%nat.
Proof.
  induction s as [|c s IH]; [done|]. cbn [lstrip_by].
  destruct (p c); cbn [length]; lia.
Qed.

Lemma lstrip_by_idemp (p : N → bool) (s : str) :
  lstrip_by p (lstrip_by p s) = lstrip_by p s.
Proof.
  induction s as [|c s IH]; [done|]. cbn [lstrip_by].
  destruct (p c) eqn:E; [done|]. cbn [lstrip_by]. by rewrite E.
Qed.

Lemma lstrip_by_snoc (p : N → bool) (s : str) (c : N) :
  p c = false → lstrip_by p (s ++ [c]) = lstrip_by p s ++ [c].
Proof.
  intros Hc. induction s as [|x s IH]; cbn; [by rewrite Hc|].
  by destruct (p x).
Qed.

Lemma rstrip_by_idemp (p : N → bool) (s : str) :
  rstrip_by p (rstrip_by p s) = rstrip_by p s.
Proof.
  unfold rstrip_by. by rewrite reverse_involutive, lstrip_by_idemp.
Qed.

(** Stripping at the end leaves a stripped head alone. *)
Lemma lstrip_by_rstrip_by (p : N → bool) (s : str) :
  lstrip_by p s = s → lstrip_by p (rstrip_by p s) = rstrip_by p s.
Proof.
  destruct s as [|c s]; [done|]. cbn [lstrip_by].
  destruct (p c) eqn:E.
  - intros Hs. pose proof (lstrip_by_length p s) as Hl.
    rewrite Hs in Hl. cbn [length] in Hl. lia.
  - intros _. unfold rstrip_by.
    rewrite reverse_cons, lstrip_by_snoc, reverse_app by done.
    cbn. by rewrite E.
Qed.

Lemma strip_idemp (s : str) : strip (strip s) = strip s.
Proof.
  unfold strip.
  rewrite (lstrip_by_rstrip_by _ _ (lstrip_by_idemp isspace s)).
  apply rstrip_by_idemp.
Qed.

Lemma greedy_inv_all {A} (p : N → bool) (s : str) (k : str → option A) (a : A) :
  greedy p s k = Some a →
  ∃ n : nat,
    k (drop n s) = Some a ∧ Forall (λ c, p c = true) (take n s) ∧
    (n ≤ length s)%nat.
Proof.
  induction s as [|c s IH]; cbn [greedy].
  - intros Hk. exists 0%nat. by split_and!.
  - destruct (p c) eqn:E.
    2:{ intros Hk. exists 0%nat. split_and!; [done|constructor|cbn; lia]. }
    destruct (greedy p s k) eqn:G.
    2:{ intros Hk. exists 0%nat. split_and!; [done|constructor|cbn; lia]. }
    intros [= ->]. destruct (IH eq_refl) as (n & Hn & Hall & Hlen).
    exists (S n). split_and!; [done|by constructor|cbn; lia].
Qed.

Section ExtractorMore.

Context `{UnicodeDB}.

(** The name an assignment line gives consists of word characters. *)
Lemma assign_match_word (s : str) (m : Match) :
  re_match assign_pattern s = Some m →
  Forall (λ c, word_char c = true) (group m 1).
Proof.
  unfold re_match, match_at, assign_pattern.
  change (rmatch (?a ⋅ ?b) ?s ?g ?k)
    with (rmatch a s g (λ rest g', rmatch b rest g' k)).
  rewrite rmatch_text. destruct (startswith s _); [|done].
  change (rmatch (?a ⋅ ?b) ?s ?g ?k)
    with (rmatch a s g (λ rest g', rmatch b rest g' k)).
  cbn [rmatch]. destruct (drop _ s) as [|c s1]; [done|].
  destruct (word_char c) eqn:Hc; [|done].
  intros (n & Hk & Hall & Hn)%greedy_inv_all.
  apply greedy_inv in Hk as [n0 Hk].
  destruct (drop n0 (drop n s1)) as [|c' rest]; [done|].
  destruct (chr "=" =? c'); [|done].
  apply greedy_inv in Hk as [n1 Hk].
  destruct (drop n1 rest) as [|c2 rest2]; [done|]. destruct (dot c2); [|done].
  apply greedy_inv in Hk as [n2 Hk]. injection Hk as <-.
  unfold group. cbn [m_groups assoc_group Nat.eqb default].
  rewrite length_drop. cbn [length].
  replace (S (length s1) - (length s1 - n))%nat with (S n) by lia.
  cbn [take]. by constructor.
Qed.

(** A line that is no assignment leaves the dictionary and the variable
    under construction in place. *)
Lemma scan_line_other (st : scan) (line : str) :
  re_match assign_pattern (strip line) = None →
  variables (scan_line st line) = variables st ∧
  current_var (scan_line st line) = current_var st.
Proof. intros Hm. unfold scan_line. rewrite Hm. by repeat case_match. Qed.

Lemma scan_line_keys (st : scan) (line n : str) :
  is_Some (flush (scan_line st line) !! n) →
  is_Some (flush st !! n) ∨
  ∃ m, re_match assign_pattern (strip line) = Some m ∧ group m 1 = n.
Proof.
  destruct (re_match assign_pattern (strip line)) as [m|] eqn:Hm.
  - rewrite (scan_line_assign _ _ _ Hm).
    intros [Hv|[[= Hc] _]]%flush_is_Some; [by left|right; eauto].
  - destruct (scan_line_other st line Hm) as [Hv Hc].
    rewrite !flush_is_Some, Hv, Hc. by left.
Qed.

Lemma foldl_scan_keys (lines : list str) (st : scan) (n : str) :
  is_Some (flush (foldl scan_line st lines) !! n) →
  is_Some (flush st !! n) ∨
  ∃ line m, line ∈ lines ∧
    re_match assign_pattern (strip line) = Some m ∧ group m 1 = n.
Proof.
  revert st. induction lines as [|l lines IH]; intros st; [by left|].
  cbn [foldl]. intros [Hn|(line & m & Hin & Hm)]%IH.
  - apply scan_line_keys in Hn as [Hn|(m & Hm & Hg)]; [by left|right].
    exists l, m. split; [apply list_elem_of_here|done].
  - right. exists line, m. split; [by apply list_elem_of_further|done].
Qed.

(** X7. The variables extracted are those the assignment lines name, no
    more and no fewer. *)
Theorem parse_mk_file_keys (content name : str) (vars : gmap str str) (n : str) :
  parse_mk_file content = (Some name, vars) →
  is_Some (vars !! n) ↔
  ∃ line m, line ∈ readlines content ∧
    re_match assign_pattern (strip line) = Some m ∧ group m 1 = n.
Proof.
  intros (_ & _ & ->)%parse_mk_file_Some. split.
  - intros [Hn|Hn]%foldl_scan_keys; [|done].
    apply flush_is_Some in Hn as [[? Hn]|[[=] _]].
    cbn in Hn. by rewrite lookup_empty in Hn.
  - intros (line & m & Hin & Hm & <-). by eapply foldl_scan_assign.
Qed.

(** X8. A variable name is never empty and consists of word characters
    (letters, digits, underscore). *)
Theorem parse_mk_file_keys_are_words
    (content name : str) (vars : gmap str str) (n : str) :
  parse_mk_file content = (Some name, vars) →
  is_Some (vars !! n) →
  n ≠ [] ∧ Forall (λ c, word_char c = true) n.
Proof.
  intros (_ & _ & ->)%parse_mk_file_Some [Hn|Hn]%foldl_scan_keys.
  - apply flush_is_Some in Hn as [[? Hn]|[[=] _]].
    cbn in Hn. by rewrite lookup_empty in Hn.
  - destruct Hn as (line & m & _ & Hm & <-). split.
    + by apply assign_match_inv in Hm as [_ ?].
    + by apply assign_match_word in Hm.
Qed.

(** X9. A file without assignment line has no variables, with or without
    a package name. *)
Theorem parse_mk_file_no_assignment (content : str) :
  (∀ line, line ∈ readlines content →
           re_match assign_pattern (strip line) = None) →
  (parse_mk_file content).2 = ∅.
Proof.
  intros Hnone. destruct (parse_mk_file content) as [[name|] vars] eqn:Hp.
  - cbn. apply map_empty. intros n. apply eq_None_not_Some.
    intros (line & m & Hin & Hm & _)%(parse_mk_file_keys _ _ _ _ Hp).
    by rewrite (Hnone line Hin) in Hm.
  - revert Hp. unfold parse_mk_file.
    destruct (find_package (readlines content)) as [[|? ?]|]; cbn;
      intros ?; by simplify_eq.
Qed.

Lemma flush_values (st : scan) :
  (∀ n v, variables st !! n = Some v → strip v = v) →
  ∀ n v, flush st !! n = Some v → strip v = v.
Proof.
  intros Hst n v. unfold flush.
  destruct (current_var st) as [[|c name]|]; try apply Hst.
  destruct (decide (c :: name = n)) as [<-|Hne].
  - rewrite lookup_insert_eq. intros [= <-]. apply strip_idemp.
  - rewrite lookup_insert_ne by done. apply Hst.
Qed.

Lemma scan_line_values (st : scan) (line : str) :
  (∀ n v, variables st !! n = Some v → strip v = v) →
  ∀ n v, variables (scan_line st line) !! n = Some v → strip v = v.
Proof.
  intros Hst. destruct (re_match assign_pattern (strip line)) as [m|] eqn:Hm.
  - rewrite (scan_line_assign _ _ _ Hm). cbn [variables]. by apply flush_values.
  - by destruct (scan_line_other st line Hm) as [-> _].
Qed.

(** X10. Every value extracted is free of blanks at both ends. *)
Theorem parse_mk_file_values_stripped
    (content name : str) (vars : gmap str str) (n v : str) :
  parse_mk_file content = (Some name, vars) →
  vars !! n = Some v →
  strip v = v.
Proof.
  intros (_ & _ & ->)%parse_mk_file_Some. apply flush_values.
  generalize (readlines content). intros lines.
  assert (Hinit : ∀ n v, variables scan_init !! n = Some v → strip v = v).
  { intros ? ?. cbn. by rewrite lookup_empty. }
  revert Hinit. generalize scan_init.
  induction lines as [|l lines IH]; intros st Hst; [done|].
  cbn [foldl]. by apply IH, scan_line_values.
Qed.

(** X11. Extraction gives either no name and no variables, or a name that
    is not empty and has no blanks at its ends. *)
Theorem parse_mk_file_name (content : str) :
  parse_mk_file content = (None, ∅) ∨
  ∃ name vars,
    parse_mk_file content = (Some name, vars) ∧ name ≠ [] ∧ strip name = name.
Proof.
  unfold parse_mk_file.
  destruct (find_package (readlines content)) as [[|c name]|] eqn:Hf;
    cbn; [by left| |by left].
  right. eexists _, _. split_and!; [done..|].
  rewrite find_package_find in Hf.
  destruct (List.find _ _) as [l|]; [|done]. injection Hf as Hf.
  rewrite <- Hf. apply strip_idemp.
Qed.

(** A carriage return ends a line unless a line feed follows. *)
Lemma readlines_go_cr (line : str) (x : N) (a : str) :
  readlines_go line (13 :: x :: a)
  = if x =? 10 then readlines_go line (x :: a)
    else reverse (10 :: line) :: readlines_go [] (x :: a).
Proof.
  destruct x as [|[p|p|]]; try reflexivity.
  destruct p as [p|p|]; try reflexivity.
  destruct p as [p|p|]; try reflexivity.
  destruct p; reflexivity.
Qed.

(** Reading up to a line feed and from there on. *)
Lemma readlines_go_app_nl (line a b : str) :
  readlines_go line (a ++ 10 :: b)
  = readlines_go line (a ++ [10]) ++ readlines_go [] b.
Proof.
  revert line. induction a as [|c a IH]; intros line; [done|].
  destruct (N.eqb_spec c 13) as [->|Hc].
  - destruct a as [|x a]; [done|]. cbn [app]. rewrite !readlines_go_cr.
    destruct (x =? 10); [apply IH|]. cbn [app]. f_equal. apply IH.
  - cbn [app readlines_go]. destruct (c =? 10); [by rewrite IH|].
    rewrite (proj2 (N.eqb_neq c 13)) by done. apply IH.
Qed.

Lemma readlines_app_nl (a b : str) :
  readlines (a ++ nl ++ b) = readlines (a ++ nl) ++ readlines b.
Proof. apply readlines_go_app_nl. Qed.

Lemma find_package_app (l1 l2 : list str) :
  find_package (l1 ++ l2)
  = match find_package l1 with
    | Some v => Some v
    | None => find_package l2
    end.
Proof.
  induction l1 as [|l l1 IH]; [done|]. cbn [app find_package].
  by destruct (startswith (strip l) (py "package=")).
Qed.

(** Blank lines and comment lines are nothing to either loop. *)
Lemma skipped_lines (ls : list str) :
  (∀ l, l ∈ ls → strip l = [] ∨ startswith (strip l) (py "#") = true) →
  find_package ls = None ∧ ∀ st, foldl scan_line st ls = st.
Proof.
  induction ls as [|l ls IH]; intros Hls; [done|].
  destruct IH as [IHf IHs].
  { intros l' Hl'. apply Hls. by apply list_elem_of_further. }
  assert (Hl := Hls l (list_elem_of_here _ _)).
  split.
  - cbn [find_package]. rewrite IHf.
    destruct Hl as [->|Hl]; [done|].
    destruct (strip l) as [|c r]; [done|].
    literals. cbn [startswith] in Hl |- *.
    apply andb_prop in Hl as [<-%N.eqb_eq _]. done.
  - intros st. cbn [foldl]. rewrite <- (IHs st) at 2. f_equal.
    unfold scan_line. destruct Hl as [-> | ->]; [done|].
    by rewrite orb_true_r.
Qed.

(** X12. Comment lines and blank lines are ignored: a file with such
    lines put in between two of its lines gives the same name and the same
    variables. *)
Theorem parse_mk_file_ignores_comments (before comments after : str) :
  (∀ l, l ∈ readlines (comments ++ nl) →
        strip l = [] ∨ startswith (strip l) (py "#") = true) →
  parse_mk_file (before ++ nl ++ comments ++ nl ++ after)
  = parse_mk_file (before ++ nl ++ after).
Proof.
  intros [Hf Hs]%skipped_lines. unfold parse_mk_file.
  rewrite (readlines_app_nl before after).
  rewrite (readlines_app_nl before (comments ++ nl ++ after)).
  rewrite (readlines_app_nl comments after).
  rewrite !find_package_app, Hf, !foldl_app, Hs. done.
Qed.

End ExtractorMore.

(** ** The cross-file index *)

Lemma index_get_set (all_packages : package_index) (k k' : str)
    (v : gmap str str) :
  index_get (index_set all_packages k v) k'
  = if decide (k' = k) then Some v else index_get all_packages k'.
Proof.
  induction all_packages as [|[j w] rest IH];
    cbn [index_set index_get]; unfold str_eqb.
  - by repeat (case_bool_decide || case_decide).
  - case_bool_decide as Ekj; cbn [index_get]; unfold str_eqb.
    + subst j. by repeat (case_bool_decide || case_decide).
    + rewrite IH. repeat (case_bool_decide || case_decide); by simplify_eq.
Qed.

Lemma index_keys_set (all_packages : package_index) (k : str)
    (v : gmap str str) :
  index_keys (index_set all_packages k v)
  = if decide (k ∈ index_keys all_packages) then index_keys all_packages
    else index_keys all_packages ++ [k].
Proof.
  unfold index_keys.
  induction all_packages as [|[j w] rest IH]; cbn [index_set fmap list_fmap fst].
  - rewrite decide_False; [done|]. apply not_elem_of_nil.
  - unfold str_eqb. case_bool_decide as E.
    + subst j. cbn. rewrite decide_True; [done|]. apply list_elem_of_here.
    + cbn [fmap list_fmap fst]. rewrite IH. case_decide as Hin.
      * rewrite decide_True; [done|]. by apply list_elem_of_further.
      * rewrite decide_False; [done|].
        intros [?|?]%elem_of_cons; [by subst|done].
Qed.

Section IndexFacts.

Context `{UnicodeDB}.

(** What the loop over the files keeps true of the index. *)
Lemma load_all_packages_go_spec (files : list (str * str))
    (all_packages : package_index) :
  let loaded := load_all_packages_go all_packages files in
  (NoDup (index_keys all_packages) → NoDup (index_keys loaded)) ∧
  ((∀ k, k ∈ index_keys all_packages → k ≠ []) →
   ∀ k, k ∈ index_keys loaded → k ≠ []) ∧
  (∀ name vars,
     index_get loaded name = Some vars →
     index_get all_packages name = Some vars ∨
     ∃ file content,
       (file, content) ∈ files ∧
       file ≠ py "packages.mk" ∧ file ≠ py "dummy.mk" ∧
       parse_mk_file content = (Some name, vars)).
Proof.
  revert all_packages.
  induction files as [|[file content] files IH]; intros all_packages;
    [by split_and!; auto|].
  cbn [load_all_packages_go].
  assert (Hskip :
    (let loaded := load_all_packages_go all_packages files in
     (NoDup (index_keys all_packages) → NoDup (index_keys loaded)) ∧
     ((∀ k, k ∈ index_keys all_packages → k ≠ []) →
      ∀ k, k ∈ index_keys loaded → k ≠ []) ∧
     (∀ name vars,
        index_get loaded name = Some vars →
        index_get all_packages name = Some vars ∨
        ∃ file' content',
          (file', content') ∈ (file, content) :: files ∧
          file' ≠ py "packages.mk" ∧ file' ≠ py "dummy.mk" ∧
          parse_mk_file content' = (Some name, vars)))).
  { destruct (IH all_packages) as (Hd & Hn & Hg).
    split_and!; [done..|].
    intros name vars [?|(f & c & Hin & ?)]%Hg; [by left|right].
    exists f, c. split; [by apply list_elem_of_further|done]. }
  destruct (bool_decide (file = py "packages.mk")
            || bool_decide (file = py "dummy.mk")) eqn:Hex; [exact Hskip|].
  apply orb_false_elim in Hex as [Hp%bool_decide_eq_false Hdm%bool_decide_eq_false].
  destruct (parse_mk_file content) as [[[|c name]|] variables] eqn:Hparse;
    [exact Hskip| |exact Hskip].
  destruct (IH (index_set all_packages (c :: name) variables)) as (Hd & Hn & Hg).
  split_and!.
  - intros Hnd. apply Hd. rewrite index_keys_set. case_decide; [done|].
    apply NoDup_app. split_and!; [done| |apply NoDup_singleton].
    intros k Hk ->%list_elem_of_singleton. done.
  - intros Hne. apply Hn. intros k. rewrite index_keys_set.
    case_decide; [apply Hne|].
    intros [?| ->%list_elem_of_singleton]%elem_of_app; [by apply Hne|done].
  - intros n vars [Hget|(f & ct & Hin & ?)]%Hg.
    + rewrite index_get_set in Hget. case_decide as E; [|by left].
      injection Hget as <-. subst n. right.
      exists file, content. split; [apply list_elem_of_here|done].
    + right. exists f, ct. split; [by apply list_elem_of_further|done].
Qed.


(** X14. What the index holds for a package is what extraction gives for
    one of the files, and never for [packages.mk] or [dummy.mk]. *)
Theorem load_all_packages_sound (files : list (str * str))
    (name : str) (vars : gmap str str) :
  index_get (load_all_packages files) name = Some vars →
  ∃ file content,
    (file, content) ∈ files ∧
    file ≠ py "packages.mk" ∧ file ≠ py "dummy.mk" ∧
    parse_mk_file content = (Some name, vars).
Proof.
  destruct (load_all_packages_go_spec files []) as (_ & _ & Hg).
  by intros [?|?]%Hg.
Qed.

End IndexFacts.

(** ** Per-file orchestration *)

Lemma startswith_app_l (s t prefix : str) :
  startswith s prefix = true → startswith (s ++ t) prefix = true.
Proof.
  revert s. induction prefix as [|x prefix IH]; intros [|c s]; cbn; try done.
  intros [-> ?]%andb_prop. cbn. eauto.
Qed.

Lemma contains_app_l (s t sub : str) :
  contains (s ++ t) sub = false → contains s sub = false.
Proof.
  induction s as [|c s IH].
  - cbn [app]. intros Ht. cbn [contains]. rewrite orb_false_r.
    destruct sub; [|done]. by destruct t.
  - cbn [app contains]. intros [Hh Ht]%orb_false_elim.
    apply orb_false_intro; [|by apply IH].
    destruct (startswith (c :: s) sub) eqn:E; [|done].
    by rewrite (startswith_app_l (c :: s) t) in Hh.
Qed.

Lemma contains_app_r (s t sub : str) :
  contains (s ++ t) sub = false → contains t sub = false.
Proof.
  induction s as [|c s IH]; [done|]. cbn [app].
  intros Hs. apply IH. by eapply contains_tail.
Qed.

(** A slash between two strings without placeholder marker makes none. *)
Lemma contains_marker_join (a b : str) :
  contains a (py "$(") = false → contains b (py "$(") = false →
  contains (a ++ py "/" ++ b) (py "$(") = false.
Proof.
  intros Ha Hb. induction a as [|x a IH].
  - literals. cbn [app contains startswith]. cbn [N.eqb Pos.eqb andb orb].
    exact Hb.
  - cbn [app contains]. apply orb_false_intro; [|apply IH; by eapply contains_tail].
    apply contains_head in Ha. revert Ha. literals. cbn [startswith].
    destruct (36 =? x); [|done]. cbn [andb].
    destruct a as [|y a]; [|done]. intros _. by cbn.
Qed.

Lemma build_url_no_marker (download_path file_name : str) :
  contains download_path (py "$(") = false →
  contains file_name (py "$(") = false →
  contains (build_url download_path file_name) (py "$(") = false.
Proof.
  intros Hd Hf.
  destruct (rstrip_slash_decomp download_path) as (n & Hb & He).
  destruct (lstrip_slash_decomp file_name) as (m & Hn & _).
  unfold build_url. rewrite He. apply contains_marker_join.
  - rewrite Hb in Hd. by apply contains_app_l in Hd.
  - rewrite Hn in Hf. by apply contains_app_r in Hf.
Qed.

Section OrchestrationMore.

Context `{UnicodeDB}.

(** X15. A file counts as [ok] only after a probe that found its URL
    reachable: the result carries the URL, which has no placeholder
    marker left, and the code and message of that probe. *)
Theorem check_dependency_file_ok (head : str → probe) (stem content : str)
    (all_packages : option package_index) :
  let r := check_dependency_file head stem content all_packages in
  r_status r = py "ok" →
  ∃ url code,
    r_url r = Some url ∧ r_status_code r = Some code ∧
    contains url (py "$(") = false ∧
    check_url head url (Some (r_package r)) = Return (true, code, r_message r).
Proof.
  unfold check_dependency_file.
  destruct (parse_mk_file content) as [[[|c name]|] variables];
    try (cbn; by intros [=]).
  destruct (variables !! py "download_path") as [dp|]; [|cbn; by intros [=]].
  destruct (choose_file_var (c :: name) variables) as [fv|]; [|cbn; by intros [=]].
  match goal with
  | |- context [match ?p with (_, _) => _ end] => destruct p as [d f]
  end.
  destruct (contains d (py "$(") || contains f (py "$(")) eqn:Hm;
    [cbn; by intros [=]|].
  apply orb_false_elim in Hm as [Hd Hf].
  destruct (check_url head (build_url d f) (Some (c :: name)))
    as [[[success code] message]|e] eqn:Hc; [|cbn; by intros [=]].
  cbn. destruct success; [|by intros [=]]. intros _.
  exists (build_url d f), code. split_and!; [done..| |done].
  by apply build_url_no_marker.
Qed.

(** X16. A skipped file is skipped before any probe: the result has no
    URL and no code, and is the same whatever the network does. *)
Theorem check_dependency_file_skip (head head' : str → probe)
    (stem content : str) (all_packages : option package_index) :
  r_status (check_dependency_file head stem content all_packages) = py "skip" →
  r_url (check_dependency_file head stem content all_packages) = None ∧
  r_status_code (check_dependency_file head stem content all_packages) = None ∧
  check_dependency_file head' stem content all_packages
  = check_dependency_file head stem content all_packages.
Proof.
  unfold check_dependency_file.
  destruct (parse_mk_file content) as [[[|c name]|] variables];
    try (cbn; by intros [=]).
  destruct (variables !! py "download_path") as [dp|]; [|done].
  destruct (choose_file_var (c :: name) variables) as [fv|]; [|done].
  match goal with
  | |- context [match ?p with (_, _) => _ end] => destruct p as [d f]
  end.
  destruct (contains d (py "$(") || contains f (py "$(")); [done|].
  destruct (check_url head (build_url d f) (Some (c :: name)))
    as [[[success code] message]|e]; [|cbn; by intros [=]].
  cbn. destruct success; by intros [=].
Qed.

(** X17. A file without a line that starts with [package=] is an error
    under the name of the file, without URL and without probe. *)
Theorem check_dependency_file_no_package (head : str → probe)
    (stem content : str) (all_packages : option package_index) :
  List.find (λ l, startswith l (py "package=")) (strip <$> readlines content)
  = None →
  check_dependency_file head stem content all_packages
  = mkResult stem None (py "error") None (py "Failed to determine package name").
Proof.
  intros Hf. unfold check_dependency_file, parse_mk_file.
  by rewrite find_package_find, Hf.
Qed.

(** X18. The status of a result is [ok], [error] or [skip]. *)
Theorem check_dependency_file_status (head : str → probe)
    (stem content : str) (all_packages : option package_index) :
  r_status (check_dependency_file head stem content all_packages)
  ∈ [py "ok"; py "error"; py "skip"].
Proof.
  unfold check_dependency_file. repeat case_match; cbn; set_solver.
Qed.

End OrchestrationMore.

(** ** The run *)

Lemma elem_of_insert_file (f g : mk_file) (files : list mk_file) :
  g ∈ insert_file f files ↔ g = f ∨ g ∈ files.
Proof.
  induction files as [|x files IH]; cbn [insert_file].
  - rewrite list_elem_of_singleton. split; [by left|]. intros [?|Hg]; [done|].
    by apply elem_of_nil in Hg.
  - destruct (str_ltb (f_name x) (f_name f)).
    + rewrite !elem_of_cons, IH. tauto.
    + rewrite !elem_of_cons. tauto.
Qed.

Lemma elem_of_sorted (g : mk_file) (files : list mk_file) :
  g ∈ sorted files ↔ g ∈ files.
Proof.
  unfold sorted. induction files as [|f files IH]; [done|].
  cbn [foldr]. rewrite elem_of_insert_file, elem_of_cons, IH. done.
Qed.

Lemma count_status_pos (status : str) (results : list result) :
  (0 < count_status status results)%nat ↔
  ∃ r, r ∈ results ∧ r_status r = status.
Proof.
  unfold count_status. induction results as [|r results IH].
  - cbn. split; [lia|]. intros (r & Hr & _). by apply elem_of_nil in Hr.
  - rewrite filter_cons. case_decide as E.
    + cbn [length]. split; [|lia]. intros _. exists r.
      split; [apply list_elem_of_here|done].
    + rewrite IH. split.
      * intros (r' & Hr' & Hs). exists r'. split; [by apply list_elem_of_further|done].
      * intros (r' & [->|Hr']%elem_of_cons & Hs); [done|eauto].
Qed.

Lemma count_status_total (results : list result) :
  (∀ r, r ∈ results → r_status r ∈ [py "ok"; py "error"; py "skip"]) →
  (count_status (py "ok") results + count_status (py "error") results
   + count_status (py "skip") results)%nat
  = length results.
Proof.
  unfold count_status. induction results as [|r results IH]; intros Hst; [done|].
  rewrite !filter_cons. cbn [length]. rewrite <- IH.
  2:{ intros r' Hr'. apply Hst. by apply list_elem_of_further. }
  assert (Hr := Hst r (list_elem_of_here _ _)).
  rewrite !elem_of_cons in Hr. destruct Hr as [Hr|[Hr|[Hr|Hr]]].
  - rewrite Hr. rewrite decide_True by done.
    rewrite !decide_False by (intros E; vm_compute in E; discriminate E).
    cbn [length]. lia.
  - rewrite Hr. rewrite (decide_True (P := py "error" = py "error")) by done.
    rewrite !decide_False by (intros E; vm_compute in E; discriminate E).
    cbn [length]. lia.
  - rewrite Hr. rewrite (decide_True (P := py "skip" = py "skip")) by done.
    rewrite !decide_False by (intros E; vm_compute in E; discriminate E).
    cbn [length]. lia.
  - by apply elem_of_nil in Hr.
Qed.

Section RunFacts.

Context `{UnicodeDB}.

(** The results of the loop: one for each file, in the order of the
    files. *)
Lemma check_all_results (head : str → probe) (all_packages : package_index)
    (total_files idx : nat) (out : str) (results : list result)
    (mk_files : list mk_file) :
  (check_all head all_packages total_files idx (out, results) mk_files).2
  = results ++
    ((λ f, check_dependency_file head (f_stem f) (f_content f) (Some all_packages))
       <$> mk_files).
Proof.
  revert idx out results.
  induction mk_files as [|f mk_files IH]; intros idx out results.
  - cbn. by rewrite app_nil_r.
  - cbn [check_all]. unfold check_one at 1.
    destruct (parse_mk_file (f_content f)) as [package_name ?].
    rewrite IH. cbn [fmap list_fmap]. by rewrite <- (assoc_L (++)).
Qed.

(** X19. Every file gives one result, and the counts of the summary add
    up to the number of files. *)
Theorem check_all_counts (head : str → probe) (all_packages : package_index)
    (total_files idx : nat) (out : str) (mk_files : list mk_file) :
  let results :=
    (check_all head all_packages total_files idx (out, []) mk_files).2 in
  length results = length mk_files ∧
  (count_status (py "ok") results + count_status (py "error") results
   + count_status (py "skip") results)%nat
  = length mk_files.
Proof.
  cbn zeta. rewrite check_all_results. cbn [app].
  assert (Hlen : length ((λ f, check_dependency_file head (f_stem f)
                             (f_content f) (Some all_packages)) <$> mk_files)
                 = length mk_files) by apply length_fmap.
  split; [done|]. rewrite <- Hlen. apply count_status_total.
  intros r (f & -> & _)%list_elem_of_fmap. apply check_dependency_file_status.
Qed.

(** X20. The exit code is 0 or 1, and it is 0 exactly when the directory
    exists, holds a package file, and no package file is checked with
    status [error]; skipped files do not count. *)
Theorem main_exit_code (head : str → probe) (depends_packages_dir : str)
    (listing : option (list mk_file)) :
  ((main head depends_packages_dir listing).2 = 0%Z ∨
   (main head depends_packages_dir listing).2 = 1%Z) ∧
  ((main head depends_packages_dir listing).2 = 0%Z ↔
   ∃ glob,
     listing = Some glob ∧
     (∃ f, f ∈ glob ∧ is_package_file f = true) ∧
     ∀ f, f ∈ glob → is_package_file f = true →
       r_status
         (check_dependency_file head (f_stem f) (f_content f)
            (Some (load_all_packages ((λ f, (f_name f, f_content f)) <$> glob))))
       ≠ py "error").
Proof.
  unfold main. destruct listing as [glob|].
  2:{ split; [by right|]. split; [done|]. by intros (? & [=] & _). }
  assert (Hmem : ∀ f, f ∈ sorted (List.filter is_package_file glob)
                      ↔ f ∈ glob ∧ is_package_file f = true).
  { intros f. rewrite elem_of_sorted, !list_elem_of_In, filter_In. done. }
  destruct (sorted (List.filter is_package_file glob)) as [|f0 files] eqn:Hs.
  { split; [by right|]. split; [done|].
    intros (g & [= <-] & (f & Hf) & _). apply Hmem in Hf.
    by apply elem_of_nil in Hf. }
  set (all_packages := load_all_packages _).
  destruct (check_all _ _ _ _ _ _) as [out results] eqn:Hc.
  assert (Hr : results = (λ f, check_dependency_file head (f_stem f)
                                  (f_content f) (Some all_packages))
                         <$> f0 :: files).
  { pose proof (check_all_results head all_packages (length (f0 :: files)) 1
                  (print (print (print [] (py "Checking "
                     ++ str_of_nat (length (f0 :: files))
                     ++ py " dependency files..." ++ newline))
                     (py "Loading package information..."))
                     (py "Loaded " ++ str_of_nat (length all_packages)
                        ++ py " packages." ++ newline))
                  [] (f0 :: files)) as Hres.
    by rewrite Hc in Hres. }
  cbn [snd]. destruct (Nat.ltb_spec 0 (count_status (py "error") results))
    as [Hpos|Hzero].
  - split; [by right|]. split; [done|].
    intros (g & [= <-] & _ & Hok).
    apply count_status_pos in Hpos as (r & Hin & Hst).
    rewrite Hr in Hin. apply list_elem_of_fmap in Hin as (f & -> & Hf).
    apply Hmem in Hf as [Hf Hp]. exfalso. by apply (Hok f).
  - split; [by left|]. split; [|done]. intros _. exists glob.
    split_and!; [done| |].
    + exists f0. apply Hmem. apply list_elem_of_here.
    + intros f Hf Hp Hst.
      assert (0 < count_status (py "error") results)%nat; [|lia].
      apply count_status_pos. eexists. split; [|exact Hst].
      rewrite Hr. apply list_elem_of_fmap. exists f. split; [done|].
      by apply Hmem.
Qed.

End RunFacts.

(** ** What cross-package resolution substitutes *)




Section CrossFacts.

Context `{UnicodeDB}.



End CrossFacts.

(** ** A placeholder of another package at the head *)

Lemma ident_char_word `{UnicodeDB} (c : N) : ident_char c = true → word_char c = true.
Proof.
  intros Hi. unfold word_char. destruct (N.ltb_spec c 128); [done|]. exfalso.
  revert Hi. unfold ident_char, ascii_alpha, ascii_digit, in_range.
  rewrite !orb_true_iff, !andb_true_iff, !N.leb_le, N.eqb_eq. lia.
Qed.

Lemma ident_char_not_rparen (c : N) : ident_char c = true → c ≠ 41.
Proof.
  unfold ident_char, ascii_alpha, ascii_digit, in_range.
  rewrite !orb_true_iff, !andb_true_iff, !N.leb_le, N.eqb_eq. lia.
Qed.

Lemma greedy_complete {A} (p : N → bool) (s : str) (k : str → option A) (n : nat) :
  Forall (λ c, p c = true) (take n s) → (n ≤ length s)%nat →
  is_Some (k (drop n s)) → is_Some (greedy p s k).
Proof.
  revert n. induction s as [|c s IH]; intros n Hall Hn Hk.
  - by destruct n.
  - cbn [greedy]. destruct n as [|n].
    + cbn in Hk. destruct (p c); [|done]. by destruct (greedy p s k).
    + cbn in Hall, Hn, Hk. apply Forall_cons in Hall as [-> Hall].
      destruct (IH n Hall ltac:(lia) Hk) as [a ->]. done.
Qed.

(** A run of the class stops before a character outside it. *)
Lemma run_bound (p : N → bool) (a b : str) (c : N) (n : nat) :
  Forall (λ c, p c = true) (take n (a ++ c :: b)) → p c = false →
  (n ≤ length a)%nat.
Proof.
  intros Hall Hc. destruct (Nat.le_gt_cases n (length a)) as [|Hgt]; [done|].
  exfalso. rewrite Forall_forall in Hall.
  assert (c ∈ take n (a ++ c :: b)) as Hin.
  { apply list_elem_of_lookup. exists (length a).
    rewrite lookup_take_lt by lia. by rewrite list_lookup_middle. }
  apply Hall in Hin. congruence.
Qed.


Lemma forallb_Forall_true (f : N → bool) (l : str) :
  forallb f l = true → Forall (λ c, f c = true) l.
Proof.
  induction l as [|c l IH]; cbn; [done|].
  intros [? ?]%andb_prop. constructor; auto.
Qed.

Lemma resolve_variables_step_fixed `{UnicodeDB} (s : str) (variables : gmap str str) (package_name : str) :
  resolve_step variables package_name s = (s, false) →
  resolve_variables s variables package_name = s.
Proof. intros Hs. unfold resolve_variables. by rewrite (bounded_loop_stop _ _ _ _ _ Hs). Qed.

Section Blocked.
Context `{UnicodeDB}.
Local Arguments N.eqb : simpl nomatch.

Lemma lookup_take_prefix (s : str) (j : nat) (c : N) :
  s !! j = Some c → startswith s (take j s ++ [c]) = true.
Proof.
  revert j. induction s as [|x s IH]; intros [|j]; cbn; try done.
  - intros [= ->]. by rewrite N.eqb_refl.
  - intros Hj. rewrite N.eqb_refl. by apply IH.
Qed.

Lemma nested_head (pos : nat) (c0 : N) (p' : str) (v0 : N) (v' rest : str) :
  ident_start c0 = true →
  Forall (λ c, ident_char c = true) p' →
  Forall (λ c, ident_char c = true) (v0 :: v') →
  ∃ m j,
    match_at nested_pattern pos
      (36 :: 40 :: (c0 :: p' ++ 95 :: v0 :: v') ++ 41 :: rest) = Some m ∧
    group m 1 = take j (c0 :: p' ++ 95 :: v0 :: v') ∧
    (c0 :: p' ++ 95 :: v0 :: v') !! j = Some 95.
Proof.
  intros Hc0 Hp Hv. unfold match_at, nested_pattern.
  change (chr "$") with 36; change (chr "(") with 40;
    change (chr "_") with 95; change (chr ")") with 41.
  cbn [rmatch N.eqb Pos.eqb app]. rewrite Hc0.
  match goal with
  | |- context [greedy ident_char ?s ?k] => set (K := k); set (ks := s)
  end.
  assert (Hsome : is_Some (greedy ident_char ks K)).
  { apply (greedy_complete _ _ _ (length p')).
    - subst ks. rewrite <- (assoc_L (++)). by rewrite take_app_length.
    - subst ks. rewrite !length_app. lia.
    - subst ks. rewrite <- (assoc_L (++)), drop_app_length. subst K.
      cbn [app N.eqb Pos.eqb]. change (95 =? 95) with true. cbn match.
      apply Forall_cons in Hv as [Hv0 Hv].
      rewrite (ident_char_word _ Hv0).
      apply (greedy_complete _ _ _ (length v')).
      + rewrite take_app_length. eapply Forall_impl; [exact Hv|].
        intros c. apply ident_char_word.
      + rewrite length_app. lia.
      + rewrite drop_app_length. change (41 =? 41) with true. cbn match. done. }
  destruct Hsome as [m Hm]. rewrite Hm.
  apply greedy_inv_all in Hm as (n & Hk & Hall & Hn).
  exists m, (S n). split; [done|].
  assert (Hle : (n ≤ length (p' ++ 95%N :: v0 :: v'))%nat).
  { eapply (run_bound ident_char); [exact Hall|done]. }
  assert (Hlook : ks !! n = Some 95).
  { subst K. cbn beta in Hk. rewrite <- (take_drop n ks) at 1.
    rewrite lookup_app_r by (rewrite length_take; lia).
    rewrite length_take, Nat.min_l, Nat.sub_diag by lia.
    destruct (drop n ks) as [|c' s']; [done|].
    destruct (N.eqb_spec 95 c') as [<-|]; done. }
  assert (Hlt : (n < length (p' ++ 95%N :: v0 :: v'))%nat).
  { destruct (decide (n = length (p' ++ 95%N :: v0 :: v'))) as [->|]; [|lia].
    subst ks. by rewrite list_lookup_middle in Hlook. }
  split.
  - subst K. cbn beta in Hk.
    destruct (drop n ks) as [|c' s'] eqn:Hd; [done|].
    destruct (95 =? c'); [|done].
    destruct s' as [|c2 s2]; [done|]. destruct (word_char c2); [|done].
    apply greedy_inv in Hk as [n2 Hk].
    destruct (drop n2 s2) as [|c3 s3]; [done|]. destruct (41 =? c3); [|done].
    injection Hk as <-. unfold group. cbn [m_groups assoc_group Nat.eqb default].
    assert (Hlen : (length ks - n = S (S (length s2)))%nat).
    { by rewrite <- length_drop, Hd. }
    unfold id. fold ks.
    replace (length ks - S (length s2))%nat with (S n) by lia.
    cbn [take]. f_equal. subst ks. by rewrite take_app_le by lia.
  - cbn [lookup list_lookup]. subst ks.
    by rewrite lookup_app_l in Hlook by lia.
Qed.


Lemma var_head (pos : nat) (c0 : N) (key' rest : str) :
  ident_start c0 = true →
  Forall (λ c, ident_char c = true) key' →
  ∃ m,
    match_at var_pattern pos (36 :: 40 :: (c0 :: key') ++ 41 :: rest) = Some m ∧
    group m 1 = c0 :: key'.
Proof.
  intros Hc0 Hkey. unfold match_at, var_pattern.
  change (chr "$") with 36; change (chr "(") with 40; change (chr ")") with 41.
  cbn [rmatch N.eqb Pos.eqb app]. rewrite Hc0.
  match goal with
  | |- context [greedy ident_char ?s ?k] => set (K := k); set (ks := s)
  end.
  assert (Hsome : is_Some (greedy ident_char ks K)).
  { apply (greedy_complete _ _ _ (length key')).
    - subst ks. by rewrite take_app_length.
    - subst ks. rewrite length_app. lia.
    - subst ks. rewrite drop_app_length. subst K. cbn beta.
      change (41 =? 41) with true. cbn match. done. }
  destruct Hsome as [m Hm]. rewrite Hm.
  apply greedy_inv_all in Hm as (n & Hk & Hall & Hn).
  exists m. split; [done|].
  assert (Hle : (n ≤ length key')%nat).
  { eapply (run_bound ident_char); [exact Hall|done]. }
  subst K. cbn beta in Hk.
  destruct (drop n ks) as [|c' s'] eqn:Hd; [done|].
  destruct (N.eqb_spec 41 c') as [<-|]; [|done].
  assert (Hlook : ks !! n = Some 41).
  { rewrite <- (take_drop n ks), Hd.
    rewrite lookup_app_r by (rewrite length_take; lia).
    by rewrite length_take, Nat.min_l, Nat.sub_diag by lia. }
  assert (n = length key') as ->.
  { destruct (decide (n = length key')) as [|Hne]; [done|]. exfalso.
    subst ks. rewrite lookup_app_l in Hlook by lia.
    rewrite Forall_forall in Hkey.
    apply (ident_char_not_rparen 41); [|done].
    apply Hkey. apply list_elem_of_lookup. eauto. }
  injection Hk as <-. unfold group. cbn [m_groups assoc_group Nat.eqb default].
  assert (Hlen : (length ks - length key' = S (length s'))%nat).
  { by rewrite <- length_drop, Hd. }
  unfold id. fold ks.
  replace (length ks - length s')%nat with (S (length key')) by lia.
  cbn [take]. f_equal. subst ks. by rewrite take_app_length.
Qed.


(** X22. Resolution looks at the first placeholder only: behind a
    placeholder [$(p_v)] that does not belong to the package, nothing is
    resolved, whatever the variables. *)
Theorem resolve_variables_blocked (package_name p v rest : str)
    (variables : gmap str str) :
  is_identifier p = true →
  v ≠ [] → forallb ident_char v = true →
  startswith (p ++ py "_" ++ v) (package_name ++ py "_") = false →
  contains (py "$(" ++ p ++ py "_" ++ v ++ py ")" ++ rest) (py "$(package)")
  = false →
  resolve_variables (py "$(" ++ p ++ py "_" ++ v ++ py ")" ++ rest)
    variables package_name
  = py "$(" ++ p ++ py "_" ++ v ++ py ")" ++ rest.
Proof.
  intros Hp Hv0 Hv Hforeign Hpkg.
  destruct p as [|c0 p']; [done|]. destruct v as [|v0 v']; [done|].
  apply andb_prop in Hp as [Hc0 Hp%forallb_Forall_true].
  apply forallb_Forall_true in Hv as Hv'.
  set (key := (c0 :: p') ++ py "_" ++ v0 :: v') in *.
  assert (Hs : py "$(" ++ (c0 :: p') ++ py "_" ++ (v0 :: v') ++ py ")" ++ rest
               = 36 :: 40 :: (c0 :: p' ++ 95 :: v0 :: v') ++ 41 :: rest).
  { literals. cbn [app]. by rewrite <- !(assoc_L (++)). }
  rewrite Hs in *.
  assert (Hkey : key = c0 :: p' ++ 95 :: v0 :: v') by done.
  apply resolve_variables_step_fixed. unfold resolve_step.
  rewrite replace_missing by done.
  unfold re_search. cbn [search_from].
  destruct (nested_head 0 c0 p' v0 v' rest Hc0 Hp Hv') as (m & j & -> & Hg & Hj).
  rewrite Hg. unfold str_eqb at 1. rewrite bool_decide_eq_false_2.
  2:{ intros <-. apply lookup_take_prefix in Hj. rewrite <- Hkey in Hj.
      change [95] with (py "_") in Hj. congruence. }
  assert (Hkey' : Forall (λ c, ident_char c = true) (p' ++ 95 :: v0 :: v')).
  { apply Forall_app. split; [done|]. by constructor. }
  destruct (var_head 0 c0 _ rest Hc0 Hkey') as (m' & -> & ->).
  rewrite <- Hkey, Hforeign. unfold str_eqb. by rewrite bool_decide_eq_true_2.
Qed.

End Blocked.

(** * The further properties at sample inputs *)

Lemma resolve_variables_package_placeholder_holds :
  resolve_variables (H:=latin1_db) (py "$(package)-src.tar.gz")
    {[py "version" := py "1.2"]} (py "foo")
  = replace (py "$(package)-src.tar.gz") (py "$(package)") (py "foo").
Proof.
  apply (resolve_variables_package_placeholder (H:=latin1_db)).
  vm_compute. reflexivity.
Defined.

Lemma resolve_cross_package_never_own_holds :
  resolve_cross_package_variables (H:=latin1_db) (py "lib-$(foo_version)")
    (py "foo") [(py "foo", {[py "version" := py "1.2"]})]
  = py "lib-$(foo_version)".
Proof.
  apply (resolve_cross_package_never_own (H:=latin1_db)).
  intros k Hk. apply list_elem_of_singleton in Hk. exact Hk.
Defined.

Lemma resolve_cross_package_idempotent_holds :
  resolve_cross_package_variables (H:=latin1_db) (py "lib-1.2") (py "bar")
    sample_index
  = py "lib-1.2".
Proof.
  apply (resolve_cross_package_idempotent (H:=latin1_db)).
  vm_compute. reflexivity.
Defined.

Lemma check_url_code_holds :
  (λ _ : str, Timeout) (py "https://example.org/a") = Response 0 ∨
  (false = false ∧ 0%Z = 0%Z ∧
   ((λ _ : str, Timeout) (py "https://example.org/a") = Timeout ∨
    (λ _ : str, Timeout) (py "https://example.org/a") = ConnectionError ∨
    (λ _ : str, Timeout) (py "https://example.org/a") = TooManyRedirects ∨
    ∃ e, (λ _ : str, Timeout) (py "https://example.org/a") = RequestException e)).
Proof.
  apply (check_url_code (λ _, Timeout) (py "https://example.org/a") None
           false 0%Z (py "Timeout")).
  reflexivity.
Defined.

Lemma parse_mk_file_keys_holds :
  is_Some ((parse_mk_file (H:=latin1_db) conditional_mk).2 !! py "download_file")
  ↔ ∃ line m,
      line ∈ readlines conditional_mk ∧
      re_match (assign_pattern (H:=latin1_db)) (strip line) = Some m ∧
      group m 1 = py "download_file".
Proof.
  apply (parse_mk_file_keys (H:=latin1_db) conditional_mk (py "foo")).
  vm_compute. reflexivity.
Defined.

Lemma parse_mk_file_keys_are_words_holds :
  py "download_file" ≠ [] ∧
  Forall (λ c, word_char (H:=latin1_db) c = true) (py "download_file").
Proof.
  apply (parse_mk_file_keys_are_words (H:=latin1_db) conditional_mk (py "foo")
           (parse_mk_file (H:=latin1_db) conditional_mk).2).
  - vm_compute. reflexivity.
  - vm_compute. eexists. reflexivity.
Defined.

Lemma parse_mk_file_no_assignment_holds :
  (parse_mk_file (H:=latin1_db) name_only_mk).2 = ∅.
Proof.
  apply (parse_mk_file_no_assignment (H:=latin1_db)).
  intros line Hin. vm_compute in Hin.
  apply list_elem_of_singleton in Hin. rewrite Hin. vm_compute. reflexivity.
Defined.

Lemma parse_mk_file_values_stripped_holds :
  strip (py "https://example.org/dl/") = py "https://example.org/dl/".
Proof.
  apply (parse_mk_file_values_stripped (H:=latin1_db) zlib_mk (py "zlib")
           (parse_mk_file (H:=latin1_db) zlib_mk).2 (py "download_path"));
    vm_compute; reflexivity.
Defined.

Lemma parse_mk_file_ignores_comments_holds :
  parse_mk_file (H:=latin1_db)
    (py "package=foo" ++ nl ++ py "# a comment" ++ nl
       ++ py "$(package)_version=1.2" ++ nl)
  = parse_mk_file (H:=latin1_db)
      (py "package=foo" ++ nl ++ py "$(package)_version=1.2" ++ nl).
Proof.
  apply (parse_mk_file_ignores_comments (H:=latin1_db) (py "package=foo")
           (py "# a comment") (py "$(package)_version=1.2" ++ nl)).
  intros l Hl. vm_compute in Hl. apply list_elem_of_singleton in Hl.
  rewrite Hl. right. vm_compute. reflexivity.
Defined.

Lemma load_all_packages_sound_holds :
  ∃ file content,
    (file, content) ∈ [(py "packages.mk", zlib_mk); (py "zlib.mk", zlib_mk)] ∧
    file ≠ py "packages.mk" ∧ file ≠ py "dummy.mk" ∧
    parse_mk_file (H:=latin1_db) content
    = (Some (py "zlib"), (parse_mk_file (H:=latin1_db) zlib_mk).2).
Proof.
  apply (load_all_packages_sound (H:=latin1_db)).
  vm_compute. reflexivity.
Defined.

Lemma check_dependency_file_ok_holds :
  ∃ url code,
    r_url (check_dependency_file (H:=latin1_db) (λ _, Response 200)
             (py "zlib") zlib_mk None) = Some url ∧
    r_status_code (check_dependency_file (H:=latin1_db) (λ _, Response 200)
                     (py "zlib") zlib_mk None) = Some code ∧
    contains url (py "$(") = false ∧
    check_url (λ _, Response 200) url
      (Some (r_package (check_dependency_file (H:=latin1_db) (λ _, Response 200)
                          (py "zlib") zlib_mk None)))
    = Return (true, code,
              r_message (check_dependency_file (H:=latin1_db) (λ _, Response 200)
                           (py "zlib") zlib_mk None)).
Proof.
  apply (check_dependency_file_ok (H:=latin1_db) (λ _, Response 200)
           (py "zlib") zlib_mk None).
  vm_compute. reflexivity.
Defined.

Lemma check_dependency_file_skip_holds :
  r_url (check_dependency_file (H:=latin1_db) (λ _, Response 200)
           (py "path_only") path_only_mk None) = None ∧
  r_status_code (check_dependency_file (H:=latin1_db) (λ _, Response 200)
                   (py "path_only") path_only_mk None) = None ∧
  check_dependency_file (H:=latin1_db) (λ _, Timeout)
    (py "path_only") path_only_mk None
  = check_dependency_file (H:=latin1_db) (λ _, Response 200)
      (py "path_only") path_only_mk None.
Proof.
  apply (check_dependency_file_skip (H:=latin1_db)).
  vm_compute. reflexivity.
Defined.

Lemma check_dependency_file_no_package_holds :
  check_dependency_file (H:=latin1_db) (λ _, Response 200) (py "broken")
    (py "package = foo" ++ nl) None
  = mkResult (py "broken") None (py "error") None
      (py "Failed to determine package name").
Proof.
  apply (check_dependency_file_no_package (H:=latin1_db)).
  vm_compute. reflexivity.
Defined.


Lemma resolve_variables_blocked_holds :
  resolve_variables (H:=latin1_db)
    (py "$(" ++ py "other" ++ py "_" ++ py "x" ++ py ")" ++ py "-$(foo_version)")
    {[py "version" := py "1.2"]} (py "foo")
  = py "$(" ++ py "other" ++ py "_" ++ py "x" ++ py ")" ++ py "-$(foo_version)".
Proof.
  apply (resolve_variables_blocked (H:=latin1_db));
    try (vm_compute; reflexivity).
  intros E. discriminate E.
Defined.
